(** * Roadbook backend: the journey service of [app/main.py]

  A shallow embedding of the FastAPI application: the [journey] table
  behind the SQLAlchemy session, the pydantic request schema, the seven
  route handlers and the way the framework turns their results and
  exceptions into HTTP responses. *)

From Stdlib Require Import List String Ascii NArith ZArith Lia.
From Stdlib Require Import DecimalString.
Import ListNotations.
Local Open Scope string_scope.
Local Open Scope list_scope.
Local Open Scope bool_scope.

(** ** Identifiers: [str(uuid.uuid4())]

  [uuid.uuid4()] reads sixteen bytes of entropy, forces the variant and
  version bits, and [str] prints the 128-bit integer as 32 lower-case
  hexadecimal digits grouped 8-4-4-4-12. *)

Module uuid.

Definition int_from_bytes (entropy : N) : N := (entropy mod 2 ^ 128)%N.

(** [int &= ~(0xc000 << 48); int |= 0x8000 << 48;
     int &= ~(0xf000 << 64); int |= version << 76] with [version = 4]. *)
Definition uuid4 (entropy : N) : N :=
  let int := int_from_bytes entropy in
  let int := N.ldiff int (N.shiftl 0xc000 48) in
  let int := N.lor int (N.shiftl 0x8000 48) in
  let int := N.ldiff int (N.shiftl 0xf000 64) in
  N.lor int (N.shiftl 4 76).

Definition hexdigits : list ascii := list_ascii_of_string "0123456789abcdef".

Definition hex_digit (d : N) : ascii := nth (N.to_nat d) hexdigits "0"%char.

(** The [i]-th character (from the left) of ['%032x' % int]. *)
Definition nibble (int : N) (i : nat) : ascii :=
  hex_digit (N.land (N.shiftr int (4 * N.of_nat (31 - i))) 15).

Definition hex32 (int : N) : list ascii := map (nibble int) (seq 0 32).

Definition slice (from to : nat) (l : list ascii) : list ascii :=
  firstn (to - from) (skipn from l).

(** ['%s-%s-%s-%s-%s' % (hex[:8], hex[8:12], hex[12:16], hex[16:20], hex[20:])] *)
Definition str (int : N) : string :=
  let hex := hex32 int in
  let dash := ["-"%char] in
  string_of_list_ascii
    (slice 0 8 hex ++ dash ++ slice 8 12 hex ++ dash ++ slice 12 16 hex
     ++ dash ++ slice 16 20 hex ++ dash ++ skipn 20 hex).

End uuid.

(** ** The data model *)

(** The ORM row of table [journey]: [id] is the primary key. *)
Module Journey.
Record t : Type := mk {
  id : string;
  name : string;
  description : string;
  ai_response : option string
}.

Definition set_name (j : t) (v : string) : t :=
  mk (id j) v (description j) (ai_response j).

Definition set_description (j : t) (v : string) : t :=
  mk (id j) (name j) v (ai_response j).
End Journey.

(** The request schema: [name] and [description] are required strings,
  [ai_response] is optional and defaults to [None]. *)
Module JourneyCreate.
Record t : Type := mk {
  name : string;
  description : string;
  ai_response : option string
}.
End JourneyCreate.

(** The response schema. *)
Module JourneyResponse.
Record t : Type := mk {
  id : string;
  name : string;
  description : string;
  ai_response : option string
}.

(** What [response_model=JourneyResponse] does to a returned row. *)
Definition of_orm (j : Journey.t) : t :=
  mk (Journey.id j) (Journey.name j) (Journey.description j)
       (Journey.ai_response j).
End JourneyResponse.

(** The table is the sequence of its rows in insertion order. *)
Definition table : Type := list Journey.t.

Definition ids (t : table) : list string := map Journey.id t.

(** ** Text

    A Python [str] is held as its UTF-8 bytes; a lone surrogate, which a JSON
    body can carry as an escape, is held as the three bytes it would take
    (lead byte ED, then a byte from A0 on).  SQLite stores text as UTF-8 and
    the driver refuses to bind a [str] that holds a lone surrogate. *)

Definition surrogate_lead (lead next : ascii) : bool :=
  N.eqb (N_of_ascii lead) 0xED && N.leb 0xA0 (N_of_ascii next).

(** Whether the driver can encode the text. *)
Fixpoint encodable (text : string) : bool :=
  match text with
  | String lead (String next _ as rest) =>
      if surrogate_lead lead next then false else encodable rest
  | _ => true
  end.

(** The first text of a statement's parameters that cannot be encoded. *)
Definition first_unencodable (parameters : list string) : option string :=
  find (fun text => negb (encodable text)) parameters.

(** ** Exceptions and the request-scoped session *)

(** What the storage libraries print for their errors.  The texts are the
    driver's and the ORM's, not the application's: the integrity error of a
    refused [INSERT] quotes the statement and the row, the encode error
    names the offending character of the text, the refresh error names the
    instance. *)
Record Engine : Type := mkEngine {
  integrity_error : Journey.t -> string;
  encode_error : string -> string;
  refresh_error : Journey.t -> string
}.

Inductive exn : Type :=
| HTTPException (status_code : nat) (detail : string)
| UpstreamError (message : string)        (* whatever the AI client raised *)
| IndexError                              (* [choices[0]] on an empty list *)
| IntegrityError (message : string)       (* primary key already in the table *)
| UnicodeEncodeError (message : string)   (* a parameter that cannot be bound *)
| InvalidRequestError (message : string). (* refresh of a row that is gone *)

(** [str(e)] *)
Definition str_exn (e : exn) : string :=
  match e with
  | HTTPException status_code detail =>
      (NilEmpty.string_of_uint (Nat.to_uint status_code) ++ ": " ++ detail)%string
  | UpstreamError message => message
  | IndexError => "list index out of range"
  | IntegrityError message => message
  | UnicodeEncodeError message => message
  | InvalidRequestError message => message
  end.

Inductive outcome (A : Type) : Type :=
| Return (a : A)
| Raise (e : exn).
Arguments Return {A} a.
Arguments Raise {A} e.

(** Work a session has recorded but not yet written. *)
Inductive pending_op : Type :=
| Add (j : Journey.t)
| SetName (pk : string) (v : string)
| SetDescription (pk : string) (v : string)
| Delete (j : Journey.t).

Record Session : Type := mkSession {
  get_bind : Engine;
  committed : table;
  pending : list pending_op
}.

(** [SessionLocal()]: a session bound to the engine, on the current table,
    with nothing pending ([autocommit=False, autoflush=False]). *)
Definition SessionLocal (engine : Engine) (t : table) : Session :=
  mkSession engine t [].

(** The parameters of [INSERT INTO journey (id, name, description,
    ai_response)]; a [None] is bound as NULL and needs no encoding. *)
Definition parameters (j : Journey.t) : list string :=
  [Journey.id j; Journey.name j; Journey.description j]
  ++ match Journey.ai_response j with
     | Some reply => [reply]
     | None => []
     end.

Definition has_pk (pk : string) (t : table) : bool :=
  existsb (String.eqb pk) (ids t).

(** One statement of the flush.  The driver binds the parameters before it
    runs the statement, so text it cannot encode is refused first; the
    primary key is checked when the [INSERT] runs. *)
Definition apply_op (engine : Engine) (op : pending_op) (t : table)
  : exn + table :=
  match op with
  | Add j =>
      match first_unencodable (parameters j) with
      | Some text => inl (UnicodeEncodeError (encode_error engine text))
      | None =>
          if has_pk (Journey.id j) t
          then inl (IntegrityError (integrity_error engine j))
          else inr (t ++ [j])
      end
  | SetName pk v =>
      if encodable v
      then inr (map (fun r => if String.eqb (Journey.id r) pk
                              then Journey.set_name r v else r) t)
      else inl (UnicodeEncodeError (encode_error engine v))
  | SetDescription pk v =>
      if encodable v
      then inr (map (fun r => if String.eqb (Journey.id r) pk
                              then Journey.set_description r v else r) t)
      else inl (UnicodeEncodeError (encode_error engine v))
  | Delete j =>
      inr (filter (fun r => negb (String.eqb (Journey.id r) (Journey.id j))) t)
  end.

(** One transaction: every pending statement in order, or none of them. *)
Fixpoint flush (engine : Engine) (ops : list pending_op) (t : table)
  : exn + table :=
  match ops with
  | [] => inr t
  | op :: ops' =>
      match apply_op engine op t with
      | inl e => inl e
      | inr t' => flush engine ops' t'
      end
  end.

(** What [SetName pk name] followed by [SetDescription pk description] make
    of one row; the lemmas on the update route are stated with it. *)
Definition overwrite (pk name description : string) (r : Journey.t) : Journey.t :=
  if String.eqb (Journey.id r) pk
  then Journey.mk (Journey.id r) name description (Journey.ai_response r)
  else r.

(** Handler code: reads and writes the session, returns or raises. *)
Definition H (A : Type) : Type := Session -> outcome A * Session.

Definition ret {A} (a : A) : H A := fun s => (Return a, s).

Definition raise {A} (e : exn) : H A := fun s => (Raise e, s).

Definition bind {A B} (c : H A) (k : A -> H B) : H B :=
  fun s =>
    match c s with
    | (Return a, s') => k a s'
    | (Raise e, s') => (Raise e, s')
    end.

(** [try: c  except Exception as e: handler e] *)
Definition try_except {A} (c : H A) (handler : exn -> H A) : H A :=
  fun s =>
    match c s with
    | (Return a, s') => (Return a, s')
    | (Raise e, s') => handler e s'
    end.

(** A call into a library that returns or raises without touching the
    session. *)
Definition call {A} (o : outcome A) : H A := fun s => (o, s).

Notation "x <- c ;; k" := (bind c (fun x => k))
  (at level 61, c at next level, right associativity).
Notation "c ;; k" := (bind c (fun _ => k))
  (at level 61, right associativity).

(** [db.query(Journey).filter(Journey.id == pk).first()] *)
Definition query_first (pk : string) (t : table) : option Journey.t :=
  find (fun r => String.eqb (Journey.id r) pk) t.

Definition db_query_first (pk : string) : H (option Journey.t) :=
  fun s => (Return (query_first pk (committed s)), s).

(** [db.query(Journey).all()] *)
Definition db_query_all : H (list Journey.t) :=
  fun s => (Return (committed s), s).

Definition db_add (j : Journey.t) : H unit :=
  fun s => (Return tt, mkSession (get_bind s) (committed s) (pending s ++ [Add j])).

Definition db_delete (j : Journey.t) : H unit :=
  fun s =>
    (Return tt, mkSession (get_bind s) (committed s) (pending s ++ [Delete j])).

(** Assigning an attribute of a loaded row marks it dirty in its session. *)
Definition set_name (j : Journey.t) (v : string) : H Journey.t :=
  fun s => (Return (Journey.set_name j v),
            mkSession (get_bind s) (committed s)
                      (pending s ++ [SetName (Journey.id j) v])).

Definition set_description (j : Journey.t) (v : string) : H Journey.t :=
  fun s => (Return (Journey.set_description j v),
            mkSession (get_bind s) (committed s)
                      (pending s ++ [SetDescription (Journey.id j) v])).

(** [db.commit()]: flush and commit; a failed flush rolls everything back. *)
Definition db_commit : H unit :=
  fun s =>
    match flush (get_bind s) (pending s) (committed s) with
    | inr t' => (Return tt, mkSession (get_bind s) t' [])
    | inl e => (Raise e, mkSession (get_bind s) (committed s) [])
    end.

(** [db.refresh(j)]: load the row again by primary key. *)
Definition db_refresh (j : Journey.t) : H Journey.t :=
  fun s =>
    match query_first (Journey.id j) (committed s) with
    | Some r => (Return r, s)
    | None => (Raise (InvalidRequestError (refresh_error (get_bind s) j)), s)
    end.

(** [Depends(get_db)]: open a session, run the handler, close the session.
    Closing drops whatever was still pending. *)
Definition get_db {A} (engine : Engine) (handler : H A) (t : table)
  : outcome A * table :=
  let (o, db) := handler (SessionLocal engine t) in (o, committed db).

(** ** Request bodies and their validation *)

#[local] Unset Elimination Schemes.
(** A decoded JSON document. *)
Inductive json : Type :=
| JNull
| JBool (b : bool)
| JNumber (n : Z)
| JString (s : string)
| JArray (elements : list json)
| JObject (items : list (string * json)).
#[local] Set Elimination Schemes.

(** Key lookup in a decoded object: of two equal keys the later one wins. *)
Definition dict_get (key : string) (items : list (string * json)) : option json :=
  fold_left (fun found kv => if String.eqb (fst kv) key then Some (snd kv) else found)
            items None.

(** One entry of the [detail] list of a validation failure (the echo of the
    offending input is left out). *)
Record ValidationError : Type := mkError {
  error_type : string;
  loc : list string;
  msg : string
}.

Definition missing (field : string) : ValidationError :=
  mkError "missing" ["body"; field] "Field required".

Definition string_type (field : string) : ValidationError :=
  mkError "string_type" ["body"; field] "Input should be a valid string".

Definition missing_body : ValidationError :=
  mkError "missing" ["body"] "Field required".

Definition model_attributes_type : ValidationError :=
  mkError "model_attributes_type" ["body"]
          "Input should be a valid dictionary or object to extract fields from".

(** A field annotated [str]. *)
Definition validate_str (field : string) (items : list (string * json))
  : list ValidationError + string :=
  match dict_get field items with
  | None => inl [missing field]
  | Some (JString s) => inr s
  | Some _ => inl [string_type field]
  end.

(** A field annotated [Optional[str] = None]. *)
Definition validate_optional_str (field : string) (items : list (string * json))
  : list ValidationError + option string :=
  match dict_get field items with
  | None => inr None
  | Some JNull => inr None
  | Some (JString s) => inr (Some s)
  | Some _ => inl [string_type field]
  end.

Definition errors_of {A} (r : list ValidationError + A) : list ValidationError :=
  match r with
  | inl errors => errors
  | inr _ => []
  end.

(** Validation of a body against [JourneyCreate]: every field of an object is
    checked and all failures are reported together, in field order; keys the
    schema does not declare are ignored; a null body counts as no body, and
    anything else that is not an object cannot hold fields. *)
Definition validate_JourneyCreate (body : json)
  : list ValidationError + JourneyCreate.t :=
  match body with
  | JObject items =>
      let name := validate_str "name" items in
      let description := validate_str "description" items in
      let ai_response := validate_optional_str "ai_response" items in
      match name, description, ai_response with
      | inr n, inr d, inr a => inr (JourneyCreate.mk n d a)
      | _, _, _ =>
          inl (errors_of name ++ errors_of description ++ errors_of ai_response)
      end
  | JNull => inl [missing_body]
  | _ => inl [model_attributes_type]
  end.





(** ** The AI client *)

Module Mistral.
Record AssistantMessage : Type := mkMessage { content : string }.
Record ChatCompletionChoice : Type := mkChoice { message : AssistantMessage }.
Record ChatCompletionResponse : Type := mkResponse {
  choices : list ChatCompletionChoice
}.

(** [client.chat.complete(model=..., messages=[...])]: each message is a
    dictionary of strings; the call returns a completion or raises. *)
Record t : Type := mk {
  chat_complete :
    string -> list (list (string * string)) -> outcome ChatCompletionResponse
}.
End Mistral.

(** [l[0]] *)
Definition getitem0 {A} (l : list A) : outcome A :=
  match l with
  | x :: _ => Return x
  | [] => Raise IndexError
  end.

(** ** Responses *)

Inductive content : Type :=
| Dict (items : list (string * string))     (* a JSON object of strings *)
| Model (r : JourneyResponse.t)
| Models (l : list JourneyResponse.t)
| Detail (errors : list ValidationError)    (* [{"detail": [...]}] *)
| PlainText (s : string).

Record Response : Type := mkResponse {
  status_code : nat;
  content_of : content
}.

(** What the framework sends for a handler's outcome: the serialised value
    with 200, an [HTTPException] with its own status and detail, and the bare
    500 page for any other exception. *)
Definition respond {A} (serialize : A -> content) (o : outcome A) : Response :=
  match o with
  | Return a => mkResponse 200 (serialize a)
  | Raise (HTTPException status detail) =>
      mkResponse status (Dict [("detail", detail)])
  | Raise _ => mkResponse 500 (PlainText "Internal Server Error")
  end.

(** A body that fails validation never reaches the handler. *)
Definition unprocessable (errors : list ValidationError) : Response :=
  mkResponse 422 (Detail errors).

Definition model : string := "mistral-large-latest".

(** ** The handlers *)

Section Handlers.

(** The module-level engine and AI client, and the entropy [uuid.uuid4()]
    draws while the request is served. *)
Variable engine : Engine.
Variable client : Mistral.t.
Variable entropy : N.

(** [Journey(...)]: an [id] that is not given is filled by the column default
    [str(uuid.uuid4())]. *)
Definition new_Journey (id : option string) (name description : string)
  (ai_response : option string) : Journey.t :=
  Journey.mk (match id with
              | Some pk => pk
              | None => uuid.str (uuid.uuid4 entropy)
              end)
             name description ai_response.

(** The [try] suite of [chat_with_mistral]. *)
Definition chat_with_mistral_try (journey : JourneyCreate.t)
  : H (list (string * string)) :=
  chat_response <-
    call (Mistral.chat_complete client model
            [[("role", "user");
              ("content", JourneyCreate.description journey)]]) ;;
  choice <- call (getitem0 (Mistral.choices chat_response)) ;;
  let ai_response := Mistral.content (Mistral.message choice) in
  let new_journey :=
    new_Journey (Some (uuid.str (uuid.uuid4 entropy)))
                (JourneyCreate.name journey)
                (JourneyCreate.description journey)
                (Some ai_response) in
  db_add new_journey ;;
  db_commit ;;
  _ <- db_refresh new_journey ;;
  ret [("response", ai_response)].

Definition chat_with_mistral (journey : JourneyCreate.t)
  : H (list (string * string)) :=
  try_except (chat_with_mistral_try journey)
             (fun e => raise (HTTPException 500 (str_exn e))).

Definition root (name : string) : list (string * string) :=
  [("greeting", ("Hello, " ++ name)%string)].

Definition create_journey (journey : JourneyCreate.t) : H Journey.t :=
  let db_journey :=
    new_Journey None (JourneyCreate.name journey)
                (JourneyCreate.description journey) None in
  db_add db_journey ;;
  db_commit ;;
  db_journey <- db_refresh db_journey ;;
  ret db_journey.

Definition not_found : exn := HTTPException 404 "Journey not found".

Definition read_journey (journey_id : string) : H Journey.t :=
  journey <- db_query_first journey_id ;;
  match journey with
  | None => raise not_found
  | Some journey => ret journey
  end.

Definition read_journeys : H (list Journey.t) := db_query_all.

Definition update_journey (journey_id : string) (journey : JourneyCreate.t)
  : H Journey.t :=
  db_journey <- db_query_first journey_id ;;
  match db_journey with
  | None => raise not_found
  | Some db_journey =>
      db_journey <- set_name db_journey (JourneyCreate.name journey) ;;
      db_journey <- set_description db_journey
                      (JourneyCreate.description journey) ;;
      db_commit ;;
      db_journey <- db_refresh db_journey ;;
      ret db_journey
  end.

Definition delete_journey (journey_id : string) : H (list (string * string)) :=
  db_journey <- db_query_first journey_id ;;
  match db_journey with
  | None => raise not_found
  | Some db_journey =>
      db_delete db_journey ;;
      db_commit ;;
      ret [("message", "Journey deleted successfully")]
  end.

(** ** The application: routes, validation, dependency, serialisation *)

Inductive Request : Type :=
| POST_journey_chat (body : json)
| GET_bonjour (name : string)
| POST_journeys (body : json)
| GET_journey (journey_id : string)
| GET_journeys
| PUT_journey (journey_id : string) (body : json)
| DELETE_journey (journey_id : string).

(** A route whose handler takes a [JourneyCreate] body and a session. *)
Definition with_body {A} (serialize : A -> content) (body : json)
  (handler : JourneyCreate.t -> H A) (t : table) : Response * table :=
  match validate_JourneyCreate body with
  | inl errors => (unprocessable errors, t)
  | inr journey =>
      let (o, t') := get_db engine (handler journey) t in
      (respond serialize o, t')
  end.

Definition without_body {A} (serialize : A -> content) (handler : H A)
  (t : table) : Response * table :=
  let (o, t') := get_db engine handler t in (respond serialize o, t').

Definition response_model (j : Journey.t) : content :=
  Model (JourneyResponse.of_orm j).

Definition response_model_list (l : list Journey.t) : content :=
  Models (map JourneyResponse.of_orm l).

Definition app (request : Request) (t : table) : Response * table :=
  match request with
  | POST_journey_chat body => with_body Dict body chat_with_mistral t
  | GET_bonjour name => (respond Dict (Return (root name)), t)
  | POST_journeys body => with_body response_model body create_journey t
  | GET_journey journey_id =>
      without_body response_model (read_journey journey_id) t
  | GET_journeys => without_body response_model_list read_journeys t
  | PUT_journey journey_id body =>
      with_body response_model body (update_journey journey_id) t
  | DELETE_journey journey_id =>
      without_body Dict (delete_journey journey_id) t
  end.

End Handlers.

(** ** Sample data: the scenarios of the specification *)

(** A client that answers every prompt with one choice reading [reply]. *)
Definition mocked (reply : string) : Mistral.t :=
  Mistral.mk (fun _ _ =>
    Return (Mistral.mkResponse [Mistral.mkChoice (Mistral.mkMessage reply)])).

(** A client whose call raises an error that prints as [message]. *)
Definition unreachable (message : string) : Mistral.t :=
  Mistral.mk (fun _ _ => Raise (UpstreamError message)).

Definition trip : json :=
  JObject [("name", JString "Trip"); ("description", JString "Plan my trip")].

Definition trip_with_reply : json :=
  JObject [("name", JString "Trip"); ("description", JString "Plan my trip");
           ("ai_response", JString "from the client")].

Definition rename_A2_B2 : json :=
  JObject [("name", JString "A2"); ("description", JString "B2")].

Definition nameless : json :=
  JObject [("description", JString "Plan my trip")].



Definition record_x : Journey.t := Journey.mk "x" "A" "B" (Some "C").

(** An engine whose errors print their cause and nothing more. *)
Definition terse : Engine :=
  mkEngine (fun _ => "UNIQUE constraint failed: journey.id")
           (fun _ => "surrogates not allowed")
           (fun _ => "Could not refresh instance").

(** The text that is the lone surrogate U+D800. *)
Definition lone_surrogate : string :=
  String (ascii_of_N 0xED) (String (ascii_of_N 0xA0) (String (ascii_of_N 0x80) "")).

Definition trip_named_by_surrogate : json :=
  JObject [("name", JString lone_surrogate);
           ("description", JString "Plan my trip")].

Definition trip_with_id : json :=
  JObject [("id", JString "chosen-by-the-client");
           ("name", JString "Trip"); ("description", JString "Plan my trip")].

Definition record_5 : Journey.t :=
  Journey.mk "00000000-0000-4000-8000-000000000005" "Trip" "Plan my trip" None.

(** A client whose completion holds no choice at all. *)
Definition speechless : Mistral.t :=
  Mistral.mk (fun _ _ => Return (Mistral.mkResponse [])).

(** A client that replies to the one call chat-create makes for the trip
    and raises on every other. *)
Definition picky : Mistral.t :=
  Mistral.mk (fun model messages =>
    match messages with
    | [[("role", "user"); ("content", "Plan my trip")]] =>
        if String.eqb model "mistral-large-latest"
        then Return (Mistral.mkResponse
                       [Mistral.mkChoice (Mistral.mkMessage "Bonjour!")])
        else Raise (UpstreamError "unknown model")
    | _ => Raise (UpstreamError "unexpected prompt")
    end).

(** ** Start-up *)

(** [os.getenv(key)] on the process environment, a list of bindings. *)
Definition getenv (key : string) (environ : list (string * string))
  : option string :=
  option_map snd (find (fun kv => String.eqb (fst kv) key) environ).

Definition api_key_error : string :=
  "MISTRAL_API_KEY n'est pas défini dans les variables d'environnement.".

(** The head of the module: [api_key = os.getenv("MISTRAL_API_KEY")], then
    [if not api_key: raise ValueError(...)].  The result is the key the
    client is built with, or the message of the error that stops the
    import. *)
Definition load_api_key (environ : list (string * string)) : string + string :=
  match getenv "MISTRAL_API_KEY" environ with
  | None => inl api_key_error
  | Some api_key =>
      if String.eqb api_key "" then inl api_key_error else inr api_key
  end.

(** ** The tables the service can hold

    [Base.metadata.create_all] starts from a table without rows, and every
    later change is made by a request served by [app]. *)
Inductive reachable : table -> Prop :=
| reachable_created : reachable []
| reachable_served (engine : Engine) (client : Mistral.t) (entropy : N)
    (request : Request) (t : table) :
    reachable t -> reachable (snd (app engine client entropy request t)).

(** * Properties *)

(** ** Identifiers *)

Lemma uuid_str_length (int : N) : String.length (uuid.str int) = 36.
Proof.
  unfold uuid.str, uuid.hex32, uuid.slice.
  cbn [seq map firstn skipn List.app Nat.sub string_of_list_ascii String.length].
  reflexivity.
Qed.

Lemma uuid_str_nonempty (int : N) : uuid.str int <> "".
Proof.
  intros E. pose proof (uuid_str_length int) as L.
  rewrite E in L. discriminate L.
Qed.

(** ** Text the driver can encode *)

Lemma encodable_without_lead (text : string) :
  Forall (fun c => N_of_ascii c <> 0xED%N) (list_ascii_of_string text) ->
  encodable text = true.
Proof.
  induction text as [| lead rest IH]; [reflexivity |].
  cbn [list_ascii_of_string]. intros Hall.
  inversion Hall as [| ? ? Hlead Hrest]; subst.
  destruct rest as [| next rest']; [reflexivity |].
  cbn [encodable]. unfold surrogate_lead.
  destruct (N.eqb_spec (N_of_ascii lead) 0xED) as [E | _];
    [now destruct Hlead |].
  cbn [andb]. now apply IH.
Qed.

Lemma hex_digit_is_hex (x : N) :
  In (uuid.hex_digit (N.land x 15)) uuid.hexdigits.
Proof.
  unfold uuid.hex_digit. apply nth_In.
  change 15%N with (N.ones 4). rewrite N.land_ones.
  pose proof (N.mod_upper_bound x (2 ^ 4)) as Hlt.
  change (List.length uuid.hexdigits) with 16.
  change (2 ^ 4)%N with 16%N in *. lia.
Qed.

Lemma nibble_is_not_a_lead (int : N) (i : nat) :
  N_of_ascii (uuid.nibble int i) <> 0xED%N.
Proof.
  unfold uuid.nibble.
  pose proof (hex_digit_is_hex (N.shiftr int (4 * N.of_nat (31 - i)))) as Hin.
  cbn [uuid.hexdigits list_ascii_of_string In] in Hin.
  repeat (destruct Hin as [<- | Hin]; [discriminate |]).
  destruct Hin.
Qed.

(** A generated id is plain ASCII, so the driver always binds it. *)
Lemma uuid_str_encodable (int : N) : encodable (uuid.str int) = true.
Proof.
  apply encodable_without_lead. unfold uuid.str.
  rewrite list_ascii_of_string_of_list_ascii.
  unfold uuid.hex32, uuid.slice.
  cbn [seq map firstn skipn List.app Nat.sub].
  repeat (constructor;
          [first [apply nibble_is_not_a_lead | discriminate] |]).
  constructor.
Qed.


(** ** The table *)

Lemma has_pk_true (pk : string) (t : table) :
  has_pk pk t = true <-> In pk (ids t).
Proof.
  unfold has_pk. rewrite existsb_exists. split.
  - intros (x & Hin & E). apply String.eqb_eq in E. now subst.
  - intros Hin. exists pk. split; [assumption | apply String.eqb_refl].
Qed.

Lemma has_pk_false (pk : string) (t : table) :
  has_pk pk t = false <-> ~ In pk (ids t).
Proof.
  rewrite <- has_pk_true. destruct (has_pk pk t); split; congruence.
Qed.

Lemma query_first_Some (pk : string) (t : table) (r : Journey.t) :
  query_first pk t = Some r -> Journey.id r = pk /\ In r t.
Proof.
  unfold query_first. intros E. apply find_some in E as [Hin E].
  apply String.eqb_eq in E. now split.
Qed.

Lemma query_first_None (pk : string) (t : table) :
  query_first pk t = None <-> ~ In pk (ids t).
Proof.
  unfold query_first, ids. split.
  - intros E Hin. apply in_map_iff in Hin as (r & <- & Hin).
    pose proof (find_none _ _ E r Hin) as F. cbv beta in F.
    rewrite String.eqb_refl in F. discriminate F.
  - intros Hnot. induction t as [| r t IH]; [reflexivity |].
    cbn [find]. destruct (String.eqb_spec (Journey.id r) pk) as [<- | _].
    + exfalso. apply Hnot. now left.
    + apply IH. intros Hin. apply Hnot. now right.
Qed.

Lemma query_first_app (pk : string) (t1 t2 : table) :
  query_first pk (t1 ++ t2) =
  match query_first pk t1 with
  | Some r => Some r
  | None => query_first pk t2
  end.
Proof.
  unfold query_first. induction t1 as [| r t1 IH]; [reflexivity |].
  simpl. destruct (String.eqb (Journey.id r) pk); [reflexivity | exact IH].
Qed.

Lemma query_first_added (pk name description : string)
  (ai_response : option string) (t : table) :
  has_pk pk t = false ->
  query_first pk (t ++ [Journey.mk pk name description ai_response]) =
  Some (Journey.mk pk name description ai_response).
Proof.
  intros Hfresh. apply has_pk_false, query_first_None in Hfresh.
  rewrite query_first_app, Hfresh. unfold query_first. cbn [find Journey.id].
  now rewrite String.eqb_refl.
Qed.

Lemma overwrite_id (pk name description : string) (r : Journey.t) :
  Journey.id (overwrite pk name description r) = Journey.id r.
Proof.
  unfold overwrite. now destruct (String.eqb (Journey.id r) pk).
Qed.

(** ** What each route computes *)

Ltac run_handler :=
  unfold app, with_body, without_body, get_db, SessionLocal,
    chat_with_mistral, chat_with_mistral_try, create_journey, read_journey,
    read_journeys, update_journey, delete_journey, new_Journey;
  unfold try_except, bind, ret, raise, call, db_query_first, db_query_all,
    db_add, db_delete, db_commit, db_refresh, set_name, set_description;
  cbn [get_bind committed pending fst snd List.app flush apply_op].

Ltac step :=
  cbn [get_bind committed pending fst snd List.app flush apply_op respond
       getitem0].

Section Routes.

Variable engine : Engine.
Variable client : Mistral.t.
Variable entropy : N.

Let generated : string := uuid.str (uuid.uuid4 entropy).

Lemma read_journey_route (journey_id : string) (t : table) :
  app engine client entropy (GET_journey journey_id) t =
  match query_first journey_id t with
  | Some r => (mkResponse 200 (Model (JourneyResponse.of_orm r)), t)
  | None => (mkResponse 404 (Dict [("detail", "Journey not found")]), t)
  end.
Proof.
  run_handler. now destruct (query_first journey_id t).
Qed.

Lemma delete_journey_route (journey_id : string) (t : table) :
  app engine client entropy (DELETE_journey journey_id) t =
  match query_first journey_id t with
  | Some r =>
      (mkResponse 200 (Dict [("message", "Journey deleted successfully")]),
       filter (fun x => negb (String.eqb (Journey.id x) journey_id)) t)
  | None => (mkResponse 404 (Dict [("detail", "Journey not found")]), t)
  end.
Proof.
  run_handler. destruct (query_first journey_id t) as [r |] eqn:E;
    [| reflexivity].
  step. apply query_first_Some in E as [-> _]. reflexivity.
Qed.

Lemma first_unencodable_generated (int : N) (rest : list string) :
  first_unencodable (uuid.str int :: rest) = first_unencodable rest.
Proof.
  unfold first_unencodable. cbn [find]. now rewrite uuid_str_encodable.
Qed.

Lemma create_journey_route (body : json) (journey : JourneyCreate.t) (t : table) :
  validate_JourneyCreate body = inr journey ->
  app engine client entropy (POST_journeys body) t =
  let row := Journey.mk generated (JourneyCreate.name journey)
                        (JourneyCreate.description journey) None in
  if encodable (JourneyCreate.name journey)
     && encodable (JourneyCreate.description journey)
  then if has_pk generated t
       then (mkResponse 500 (PlainText "Internal Server Error"), t)
       else (mkResponse 200 (Model (JourneyResponse.of_orm row)), t ++ [row])
  else (mkResponse 500 (PlainText "Internal Server Error"), t).
Proof.
  intros V. run_handler. rewrite V. step.
  cbn [parameters Journey.id Journey.name Journey.description
       Journey.ai_response List.app].
  fold generated. unfold generated at 1.
  rewrite first_unencodable_generated. unfold first_unencodable. cbn [find].
  destruct (encodable (JourneyCreate.name journey)); cbn [negb andb];
    [| reflexivity].
  destruct (encodable (JourneyCreate.description journey)); cbn [negb];
    [| reflexivity].
  destruct (has_pk generated t) eqn:F; [reflexivity |].
  step. cbn [Journey.id]. rewrite query_first_added by exact F.
  reflexivity.
Qed.

Lemma chat_with_mistral_route (body : json) (journey : JourneyCreate.t) (t : table) :
  validate_JourneyCreate body = inr journey ->
  app engine client entropy (POST_journey_chat body) t =
  match Mistral.chat_complete client model
          [[("role", "user"); ("content", JourneyCreate.description journey)]]
  with
  | Raise e => (mkResponse 500 (Dict [("detail", str_exn e)]), t)
  | Return chat_response =>
      match Mistral.choices chat_response with
      | [] => (mkResponse 500 (Dict [("detail", str_exn IndexError)]), t)
      | choice :: _ =>
          let ai_response := Mistral.content (Mistral.message choice) in
          let row := Journey.mk generated (JourneyCreate.name journey)
                       (JourneyCreate.description journey) (Some ai_response) in
          match first_unencodable [JourneyCreate.name journey;
                                   JourneyCreate.description journey;
                                   ai_response]
          with
          | Some text =>
              (mkResponse 500 (Dict [("detail", encode_error engine text)]), t)
          | None =>
              if has_pk generated t
              then (mkResponse 500
                      (Dict [("detail", integrity_error engine row)]), t)
              else (mkResponse 200 (Dict [("response", ai_response)]),
                    t ++ [row])
          end
      end
  end.
Proof.
  intros V. run_handler. rewrite V.
  destruct (Mistral.chat_complete client model _) as [chat_response | e];
    [| reflexivity].
  destruct (Mistral.choices chat_response) as [| choice rest]; [reflexivity |].
  step.
  cbn [parameters Journey.id Journey.name Journey.description
       Journey.ai_response List.app].
  fold generated. unfold generated at 1.
  rewrite first_unencodable_generated.
  destruct (first_unencodable _) as [text |]; [reflexivity |].
  destruct (has_pk generated t) eqn:F; [reflexivity |].
  step. cbn [Journey.id]. rewrite query_first_added by exact F.
  reflexivity.
Qed.

Lemma query_first_map (f : Journey.t -> Journey.t) (pk : string) (t : table) :
  (forall x, Journey.id (f x) = Journey.id x) ->
  query_first pk (map f t) = option_map f (query_first pk t).
Proof.
  intros Hid. unfold query_first. induction t as [| r t IH]; [reflexivity |].
  simpl. rewrite Hid.
  destruct (String.eqb (Journey.id r) pk); [reflexivity | exact IH].
Qed.

Lemma update_journey_route (journey_id : string) (body : json)
  (journey : JourneyCreate.t) (t : table) :
  validate_JourneyCreate body = inr journey ->
  app engine client entropy (PUT_journey journey_id body) t =
  match query_first journey_id t with
  | Some r =>
      if encodable (JourneyCreate.name journey)
         && encodable (JourneyCreate.description journey)
      then (mkResponse 200
              (Model (JourneyResponse.mk journey_id (JourneyCreate.name journey)
                        (JourneyCreate.description journey)
                        (Journey.ai_response r))),
            map (overwrite journey_id (JourneyCreate.name journey)
                           (JourneyCreate.description journey)) t)
      else (mkResponse 500 (PlainText "Internal Server Error"), t)
  | None => (mkResponse 404 (Dict [("detail", "Journey not found")]), t)
  end.
Proof.
  intros V. run_handler. rewrite V.
  destruct (query_first journey_id t) as [r |] eqn:E; [| reflexivity].
  step. cbn [Journey.id Journey.set_name Journey.set_description].
  destruct (encodable (JourneyCreate.name journey)); cbn [andb];
    [| reflexivity].
  destruct (encodable (JourneyCreate.description journey)); [| reflexivity].
  step. cbn [Journey.id].
  destruct (query_first_Some _ _ _ E) as [Hid _]. rewrite Hid, map_map.
  rewrite (map_ext _ (overwrite journey_id (JourneyCreate.name journey)
                        (JourneyCreate.description journey))).
  - rewrite query_first_map, E by apply overwrite_id.
    cbn [option_map]. unfold overwrite at 1. rewrite Hid, String.eqb_refl.
    step. unfold response_model, JourneyResponse.of_orm.
    cbn [Journey.id Journey.name Journey.description Journey.ai_response].
    reflexivity.
  - intros x. unfold overwrite.
    destruct (String.eqb (Journey.id x) journey_id) eqn:Ex;
      unfold Journey.set_name; cbn [Journey.id]; rewrite Ex; reflexivity.
Qed.

Lemma rejected_body (A : Type) (serialize : A -> content) (body : json)
  (handler : JourneyCreate.t -> H A) (errors : list ValidationError)
  (t : table) :
  validate_JourneyCreate body = inl errors ->
  with_body engine serialize body handler t = (unprocessable errors, t).
Proof.
  intros V. unfold with_body. now rewrite V.
Qed.

End Routes.

(** ** The primary key *)

Lemma ids_overwrite (pk name description : string) (t : table) :
  ids (map (overwrite pk name description) t) = ids t.
Proof.
  unfold ids. rewrite map_map. apply map_ext. intros r. apply overwrite_id.
Qed.

Lemma ids_filter_incl (p : Journey.t -> bool) (t : table) (pk : string) :
  In pk (ids (filter p t)) -> In pk (ids t).
Proof.
  unfold ids. rewrite !in_map_iff. intros (r & E & Hin).
  apply filter_In in Hin as [Hin _]. now exists r.
Qed.

Lemma NoDup_ids_filter (p : Journey.t -> bool) (t : table) :
  NoDup (ids t) -> NoDup (ids (filter p t)).
Proof.
  induction t as [| r t IH]; [trivial |].
  cbn [ids map filter]. intros Hnd. inversion Hnd as [| ? ? Hnotin Hnd']; subst.
  destruct (p r); [| now apply IH].
  cbn [map]. constructor; [| now apply IH].
  intros Hin. apply Hnotin. eapply ids_filter_incl, Hin.
Qed.

Lemma NoDup_ids_added (j : Journey.t) (t : table) :
  NoDup (ids t) -> has_pk (Journey.id j) t = false -> NoDup (ids (t ++ [j])).
Proof.
  intros Hnd Hfresh. apply has_pk_false in Hfresh.
  unfold ids in *. rewrite map_app. cbn [map].
  apply NoDup_app; repeat split.
  - exact Hnd.
  - constructor; [intros [] | constructor].
  - intros pk Hin [<- | []]. now apply Hfresh.
Qed.

Lemma query_first_deleted (pk : string) (t : table) :
  query_first pk
    (filter (fun x => negb (String.eqb (Journey.id x) pk)) t) = None.
Proof.
  apply query_first_None. unfold ids. rewrite in_map_iff.
  intros (r & E & Hin). apply filter_In in Hin as [_ Hp].
  rewrite E, String.eqb_refl in Hp. discriminate Hp.
Qed.

Lemma query_first_other (pk other name description : string) (t : table) :
  other <> pk ->
  query_first other (map (overwrite pk name description) t) =
  query_first other t.
Proof.
  intros Hneq. rewrite query_first_map by apply overwrite_id.
  destruct (query_first other t) as [r |] eqn:E; [| reflexivity].
  apply query_first_Some in E as [Hid _]. cbn [option_map]. f_equal.
  unfold overwrite. rewrite Hid.
  now destruct (String.eqb_spec other pk).
Qed.

Lemma valid_or_rejected (body : json) :
  {journey | validate_JourneyCreate body = inr journey} +
  {errors | validate_JourneyCreate body = inl errors}.
Proof.
  destruct (validate_JourneyCreate body) as [errors | journey];
    [right | left]; eauto.
Qed.

(** Splits a goal about [app engine client entropy request t] into the
    branches the routes take, each with its answer and table written out. *)
Ltac by_route engine client entropy request t :=
  let body := fresh "body" in
  let pk := fresh "pk" in
  let journey := fresh "journey" in
  let errors := fresh "errors" in
  let V := fresh "V" in
  let Hpk := fresh "Hpk" in
  let Henc := fresh "Henc" in
  let Hq := fresh "Hq" in
  let r := fresh "r" in
  let text := fresh "text" in
  destruct request as [body | ? | body | pk | | pk body | pk];
  [ destruct (valid_or_rejected body) as [[journey V] | [errors V]];
    [ rewrite ?(chat_with_mistral_route engine client entropy body journey t V);
      destruct (Mistral.chat_complete client model
                  [[("role", "user");
                    ("content", JourneyCreate.description journey)]])
        as [[[| ? ?]] | ?];
      [ | cbv zeta; cbn [Mistral.choices];
          destruct (first_unencodable _) as [text |] eqn:Henc;
          [ | destruct (has_pk (uuid.str (uuid.uuid4 entropy)) t) eqn:Hpk ] | ]
    | cbn [app]; rewrite ?(rejected_body _ _ _ _ _ _ t V) ]
  | cbn [app respond]
  | destruct (valid_or_rejected body) as [[journey V] | [errors V]];
    [ rewrite ?(create_journey_route engine client entropy body journey t V);
      cbv zeta;
      destruct (encodable (JourneyCreate.name journey)
                && encodable (JourneyCreate.description journey)) eqn:Henc;
      [ destruct (has_pk (uuid.str (uuid.uuid4 entropy)) t) eqn:Hpk | ]
    | cbn [app]; rewrite ?(rejected_body _ _ _ _ _ _ t V) ]
  | rewrite ?read_journey_route;
    destruct (query_first pk t) as [r |] eqn:Hq
  | change (app engine client entropy GET_journeys t)
      with (mkResponse 200 (Models (map JourneyResponse.of_orm t)), t)
  | destruct (valid_or_rejected body) as [[journey V] | [errors V]];
    [ rewrite ?(update_journey_route engine client entropy pk body journey t V);
      destruct (query_first pk t) as [r |] eqn:Hq;
      [ destruct (encodable (JourneyCreate.name journey)
                  && encodable (JourneyCreate.description journey)) eqn:Henc
      | ]
    | cbn [app]; rewrite ?(rejected_body _ _ _ _ _ _ t V) ]
  | rewrite ?delete_journey_route;
    destruct (query_first pk t) as [r |] eqn:Hq ];
  cbn [fst snd status_code content_of unprocessable Mistral.choices].

(** Every route keeps the primary key unique. *)
Lemma app_keeps_primary_key (engine : Engine) (client : Mistral.t) (entropy : N)
  (request : Request) (t : table) :
  NoDup (ids t) -> NoDup (ids (snd (app engine client entropy request t))).
Proof.
  intros Hnd. by_route engine client entropy request t; trivial.
  - now apply NoDup_ids_added.
  - now apply NoDup_ids_added.
  - now rewrite ids_overwrite.
  - now apply NoDup_ids_filter.
Qed.

(** ** Validation *)





(** * The claims *)

(** C1. When the AI call raises, chat-create answers 500 with the
    exception's message in [detail] and the table is exactly what it was. *)
Theorem chat_upstream_failure_leaves_table
  (engine : Engine) (client : Mistral.t) (entropy : N) (body : json)
  (journey : JourneyCreate.t) (e : exn) (t : table) :
  validate_JourneyCreate body = inr journey ->
  Mistral.chat_complete client model
    [[("role", "user"); ("content", JourneyCreate.description journey)]]
  = Raise e ->
  app engine client entropy (POST_journey_chat body) t =
  (mkResponse 500 (Dict [("detail", str_exn e)]), t).
Proof.
  intros V Hraise.
  rewrite (chat_with_mistral_route engine client entropy body _ t V), Hraise.
  reflexivity.
Qed.

(** The failure scenario with one stored record. *)
Lemma chat_upstream_failure_leaves_table_witness :
  validate_JourneyCreate trip =
  inr (JourneyCreate.mk "Trip" "Plan my trip" None) /\
  Mistral.chat_complete (unreachable "connection refused") model
    [[("role", "user"); ("content", "Plan my trip")]]
  = Raise (UpstreamError "connection refused") /\
  app terse (unreachable "connection refused") 5 (POST_journey_chat trip) [record_x]
  = (mkResponse 500 (Dict [("detail", "connection refused")]), [record_x]).
Proof.
  split; [reflexivity |]. split; [reflexivity |].
  exact (chat_upstream_failure_leaves_table terse
           (unreachable "connection refused") 5 trip
           (JourneyCreate.mk "Trip" "Plan my trip" None)
           (UpstreamError "connection refused") [record_x]
           eq_refl eq_refl).
Defined.

(** C2 as the code has it.  When the AI call returns a completion whose
    first choice reads [R], the generated id is not yet a key of the table,
    and the name, the description and [R] are text the store can encode,
    chat-create answers 200 with [{response: R}] and appends exactly one row
    holding the request's name and description and [R]; the listing then
    shows it. *)
Theorem chat_create_persists_reply
  (engine : Engine) (client : Mistral.t) (entropy : N) (body : json)
  (journey : JourneyCreate.t) (chat_response : Mistral.ChatCompletionResponse)
  (choice : Mistral.ChatCompletionChoice)
  (rest : list Mistral.ChatCompletionChoice) (t : table) :
  validate_JourneyCreate body = inr journey ->
  Mistral.chat_complete client model
    [[("role", "user"); ("content", JourneyCreate.description journey)]]
  = Return chat_response ->
  Mistral.choices chat_response = choice :: rest ->
  ~ In (uuid.str (uuid.uuid4 entropy)) (ids t) ->
  encodable (JourneyCreate.name journey) = true ->
  encodable (JourneyCreate.description journey) = true ->
  encodable (Mistral.content (Mistral.message choice)) = true ->
  let R := Mistral.content (Mistral.message choice) in
  let row := Journey.mk (uuid.str (uuid.uuid4 entropy))
               (JourneyCreate.name journey)
               (JourneyCreate.description journey) (Some R) in
  app engine client entropy (POST_journey_chat body) t =
  (mkResponse 200 (Dict [("response", R)]), t ++ [row]) /\
  forall client' entropy',
    fst (app engine client' entropy' GET_journeys (t ++ [row])) =
    mkResponse 200
      (Models (map JourneyResponse.of_orm t ++ [JourneyResponse.of_orm row])).
Proof.
  intros V Hret Hchoices Hfresh Hname Hdescription Hreply R row. split.
  - rewrite (chat_with_mistral_route engine client entropy body _ t V).
    rewrite Hret, Hchoices. cbv zeta. unfold first_unencodable. cbn [find].
    rewrite Hname, Hdescription, Hreply. cbn [negb].
    apply has_pk_false in Hfresh. now rewrite Hfresh.
  - intros client' entropy'. run_handler. step.
    unfold response_model_list. now rewrite map_app.
Qed.

(** The chat-create scenario of the specification. *)
Lemma chat_create_persists_reply_witness :
  ~ In (uuid.str (uuid.uuid4 5)) (ids [record_x]) /\
  app terse (mocked "Bonjour!") 5 (POST_journey_chat trip) [record_x] =
  (mkResponse 200 (Dict [("response", "Bonjour!")]),
   [record_x;
    Journey.mk "00000000-0000-4000-8000-000000000005" "Trip" "Plan my trip"
               (Some "Bonjour!")]).
Proof.
  assert (Hfresh : ~ In (uuid.str (uuid.uuid4 5)) (ids [record_x])).
  { intros [E | []]. discriminate E. }
  split; [exact Hfresh |].
  exact (proj1 (chat_create_persists_reply terse
                  (mocked "Bonjour!") 5 trip
                  (JourneyCreate.mk "Trip" "Plan my trip" None)
                  (Mistral.mkResponse
                     [Mistral.mkChoice (Mistral.mkMessage "Bonjour!")])
                  (Mistral.mkChoice (Mistral.mkMessage "Bonjour!")) []
                  [record_x] eq_refl eq_refl eq_refl Hfresh
                  eq_refl eq_refl eq_refl)).
Defined.

(** C2 as the specification words it fails: a body whose name is a lone
    surrogate is accepted and the AI replies, yet the insert cannot bind the
    name, so the answer is 500 and no record is stored. *)
Lemma chat_create_of_unencodable_name_is_500 :
  validate_JourneyCreate trip_named_by_surrogate =
  inr (JourneyCreate.mk lone_surrogate "Plan my trip" None) /\
  Mistral.chat_complete (mocked "Bonjour!") model
    [[("role", "user"); ("content", "Plan my trip")]] =
  Return (Mistral.mkResponse
            [Mistral.mkChoice (Mistral.mkMessage "Bonjour!")]) /\
  status_code
    (fst (app terse (mocked "Bonjour!") 5
            (POST_journey_chat trip_named_by_surrogate) [])) = 500 /\
  snd (app terse (mocked "Bonjour!") 5
         (POST_journey_chat trip_named_by_surrogate) []) = [].
Proof.
  repeat split; reflexivity.
Qed.

(** C3. A record that create returned is read back unchanged under its
    returned id, with the submitted name and description; a record made by
    chat-create is read back under its generated id with the submitted name
    and description and the stored reply. *)
Theorem create_then_read_round_trip
  (engine : Engine) (client client' : Mistral.t) (entropy entropy' : N) (body : json)
  (journey : JourneyCreate.t) (t : table) :
  validate_JourneyCreate body = inr journey ->
  (forall r t',
     app engine client entropy (POST_journeys body) t = (mkResponse 200 (Model r), t') ->
     JourneyResponse.name r = JourneyCreate.name journey /\
     JourneyResponse.description r = JourneyCreate.description journey /\
     app engine client' entropy' (GET_journey (JourneyResponse.id r)) t' =
     (mkResponse 200 (Model r), t')) /\
  (forall R t',
     app engine client entropy (POST_journey_chat body) t =
     (mkResponse 200 (Dict [("response", R)]), t') ->
     app engine client' entropy' (GET_journey (uuid.str (uuid.uuid4 entropy))) t' =
     (mkResponse 200
        (Model (JourneyResponse.mk (uuid.str (uuid.uuid4 entropy))
                  (JourneyCreate.name journey)
                  (JourneyCreate.description journey) (Some R))), t')).
Proof.
  intros V. split.
  - intros r t'. rewrite (create_journey_route engine client entropy body _ t V).
    cbv zeta. destruct (encodable _ && encodable _); [| discriminate].
    destruct (has_pk _ t) eqn:F; [discriminate |].
    intros E. injection E as <- <-. unfold JourneyResponse.of_orm.
    cbn [JourneyResponse.id JourneyResponse.name JourneyResponse.description
         Journey.id Journey.name Journey.description Journey.ai_response].
    repeat split.
    rewrite read_journey_route, query_first_added by exact F. reflexivity.
  - intros R t'. rewrite (chat_with_mistral_route engine client entropy body _ t V).
    destruct (Mistral.chat_complete _ _ _) as [chat_response | e];
      [| discriminate].
    destruct (Mistral.choices chat_response) as [| choice rest];
      [discriminate |].
    cbv zeta. destruct (first_unencodable _); [discriminate |].
    destruct (has_pk _ t) eqn:F; [discriminate |].
    intros E. injection E as <- <-.
    rewrite read_journey_route, query_first_added by exact F. reflexivity.
Qed.

(** A plain create read back under the id it returned. *)
Lemma create_then_read_round_trip_witness :
  app terse (mocked "Bonjour!") 5 (POST_journeys trip) [record_x] =
  (mkResponse 200
     (Model (JourneyResponse.mk "00000000-0000-4000-8000-000000000005"
               "Trip" "Plan my trip" None)),
   [record_x;
    Journey.mk "00000000-0000-4000-8000-000000000005" "Trip" "Plan my trip"
               None]) /\
  app terse (unreachable "down") 9
    (GET_journey "00000000-0000-4000-8000-000000000005")
    [record_x;
     Journey.mk "00000000-0000-4000-8000-000000000005" "Trip" "Plan my trip"
                None] =
  (mkResponse 200
     (Model (JourneyResponse.mk "00000000-0000-4000-8000-000000000005"
               "Trip" "Plan my trip" None)),
   [record_x;
    Journey.mk "00000000-0000-4000-8000-000000000005" "Trip" "Plan my trip"
               None]).
Proof.
  split; [reflexivity |].
  exact (proj2 (proj2
    (proj1 (create_then_read_round_trip terse
              (mocked "Bonjour!") (unreachable "down") 5 9 trip
              (JourneyCreate.mk "Trip" "Plan my trip" None) [record_x]
              eq_refl)
       (JourneyResponse.mk "00000000-0000-4000-8000-000000000005"
          "Trip" "Plan my trip" None)
       [record_x;
        Journey.mk "00000000-0000-4000-8000-000000000005" "Trip"
                   "Plan my trip" None]
       eq_refl))).
Defined.

(** C4 as the code has it.  Updating a stored record [x] with a name and a
    description the store can encode answers and stores the record with the
    new name and description and the old id and aiResponse; the keys of the
    table and every other record stay as they were. *)
Theorem update_overwrites_only_name_and_description
  (engine : Engine) (client : Mistral.t) (entropy : N) (x : string) (body : json)
  (journey : JourneyCreate.t) (r : Journey.t) (t : table) :
  validate_JourneyCreate body = inr journey ->
  query_first x t = Some r ->
  encodable (JourneyCreate.name journey) = true ->
  encodable (JourneyCreate.description journey) = true ->
  let r' := Journey.mk (Journey.id r) (JourneyCreate.name journey)
              (JourneyCreate.description journey) (Journey.ai_response r) in
  let t' := snd (app engine client entropy (PUT_journey x body) t) in
  Journey.id r = x /\
  fst (app engine client entropy (PUT_journey x body) t) =
  mkResponse 200 (Model (JourneyResponse.of_orm r')) /\
  query_first x t' = Some r' /\
  ids t' = ids t /\
  (forall y, y <> x -> query_first y t' = query_first y t).
Proof.
  intros V E Hname Hdescription r' t'. subst r' t'.
  rewrite (update_journey_route engine client entropy x body _ t V), E.
  rewrite Hname, Hdescription. cbn [andb].
  destruct (query_first_Some _ _ _ E) as [Hid _]. cbn [fst snd].
  split; [exact Hid |]. split; [now rewrite Hid |]. split; [| split].
  - rewrite query_first_map, E by apply overwrite_id.
    cbn [option_map]. unfold overwrite. now rewrite Hid, String.eqb_refl.
  - apply ids_overwrite.
  - intros y Hneq. now apply query_first_other.
Qed.

(** The update example of the specification. *)
Lemma update_overwrites_only_name_and_description_witness :
  query_first "x" [record_x] = Some record_x /\
  app terse (unreachable "down") 0 (PUT_journey "x" rename_A2_B2) [record_x] =
  (mkResponse 200 (Model (JourneyResponse.mk "x" "A2" "B2" (Some "C"))),
   [Journey.mk "x" "A2" "B2" (Some "C")]) /\
  query_first "x"
    (snd (app terse (unreachable "down") 0 (PUT_journey "x" rename_A2_B2)
            [record_x])) =
  Some (Journey.mk "x" "A2" "B2" (Some "C")).
Proof.
  split; [reflexivity |]. split; [reflexivity |].
  exact (proj1 (proj2 (proj2
    (update_overwrites_only_name_and_description terse
       (unreachable "down") 0 "x" rename_A2_B2
       (JourneyCreate.mk "A2" "B2" None) record_x [record_x]
       eq_refl eq_refl eq_refl eq_refl)))).
Defined.

(** C4 as the specification words it fails: record [x] is stored and the
    body is accepted, but its name is a lone surrogate the update cannot
    bind, so the answer is 500 and the record keeps its old name. *)
Lemma update_to_unencodable_name_is_500 :
  query_first "x" [record_x] = Some record_x /\
  validate_JourneyCreate trip_named_by_surrogate =
  inr (JourneyCreate.mk lone_surrogate "Plan my trip" None) /\
  app terse (unreachable "down") 0
    (PUT_journey "x" trip_named_by_surrogate) [record_x] =
  (mkResponse 500 (PlainText "Internal Server Error"), [record_x]).
Proof.
  repeat split; reflexivity.
Qed.

(** C5. For an id that is not in the table, read-one, update and delete each
    answer 404 with the fixed message; reading an id after deleting it, or
    deleting an id that was never there, gives the same answer. *)
Theorem absent_id_is_not_found
  (engine : Engine) (client : Mistral.t) (entropy : N) (x : string) (body : json)
  (journey : JourneyCreate.t) (t : table) :
  ~ In x (ids t) ->
  validate_JourneyCreate body = inr journey ->
  let missing := mkResponse 404 (Dict [("detail", "Journey not found")]) in
  fst (app engine client entropy (GET_journey x) t) = missing /\
  fst (app engine client entropy (PUT_journey x body) t) = missing /\
  fst (app engine client entropy (DELETE_journey x) t) = missing /\
  (forall client' entropy' t0,
     fst (app engine client' entropy' (GET_journey x)
            (snd (app engine client entropy (DELETE_journey x) t0))) = missing).
Proof.
  intros Habsent V missing. apply query_first_None in Habsent.
  rewrite read_journey_route, delete_journey_route,
    (update_journey_route engine client entropy x body _ t V), Habsent.
  repeat split.
  intros client' entropy' t0.
  rewrite delete_journey_route, read_journey_route.
  destruct (query_first x t0) eqn:E; cbn [snd].
  - now rewrite query_first_deleted.
  - now rewrite E.
Qed.

(** Deleting and then reading an id that was never stored. *)
Lemma absent_id_is_not_found_witness :
  ~ In "y" (ids [record_x]) /\
  fst (app terse (unreachable "down") 0 (DELETE_journey "y") [record_x]) =
  mkResponse 404 (Dict [("detail", "Journey not found")]) /\
  fst (app terse (unreachable "down") 1 (GET_journey "y")
         (snd (app terse (unreachable "down") 0 (DELETE_journey "y") [record_x]))) =
  mkResponse 404 (Dict [("detail", "Journey not found")]).
Proof.
  assert (Habsent : ~ In "y" (ids [record_x])).
  { intros [E | []]. discriminate E. }
  split; [exact Habsent |].
  pose proof (absent_id_is_not_found terse (unreachable "down") 0 "y" rename_A2_B2
                (JourneyCreate.mk "A2" "B2" None) [record_x] Habsent eq_refl)
    as (_ & _ & Hdelete & Hread).
  split; [exact Hdelete | exact (Hread (unreachable "down") 1%N [record_x])].
Defined.

(** C6. A record returned by create carries the 36-character id printed from
    the generated UUID, whatever the body holds; that id was not a key of the
    table before, so a later create, even of the same body, returns another
    one; and every route keeps the keys of the table pairwise distinct. *)
Theorem created_id_is_generated_and_unique
  (engine : Engine) (client client' : Mistral.t) (entropy entropy' : N) (body body' : json)
  (journey journey' : JourneyCreate.t) (r r' : JourneyResponse.t)
  (t t' t'' : table) :
  NoDup (ids t) ->
  validate_JourneyCreate body = inr journey ->
  validate_JourneyCreate body' = inr journey' ->
  app engine client entropy (POST_journeys body) t = (mkResponse 200 (Model r), t') ->
  app engine client' entropy' (POST_journeys body') t' =
  (mkResponse 200 (Model r'), t'') ->
  JourneyResponse.id r = uuid.str (uuid.uuid4 entropy) /\
  String.length (JourneyResponse.id r) = 36 /\
  JourneyResponse.id r <> "" /\
  ~ In (JourneyResponse.id r) (ids t) /\
  JourneyResponse.id r' <> JourneyResponse.id r /\
  NoDup (ids t') /\ NoDup (ids t'') /\
  (forall request, NoDup (ids (snd (app engine client entropy request t'')))).
Proof.
  intros Hnd V V' Hfirst Hsecond.
  pose proof (app_keeps_primary_key engine client entropy (POST_journeys body) t Hnd)
    as Hnd'.
  rewrite Hfirst in Hnd'. cbn [snd] in Hnd'.
  pose proof (app_keeps_primary_key engine client' entropy' (POST_journeys body') t' Hnd')
    as Hnd''.
  rewrite Hsecond in Hnd''. cbn [snd] in Hnd''.
  rewrite (create_journey_route engine client entropy body _ t V) in Hfirst.
  rewrite (create_journey_route engine client' entropy' body' _ t' V') in Hsecond.
  cbv zeta in Hfirst, Hsecond.
  destruct (encodable (JourneyCreate.name journey) && _); [| discriminate].
  destruct (encodable (JourneyCreate.name journey') && _); [| discriminate].
  destruct (has_pk _ t) eqn:F; [discriminate |].
  destruct (has_pk _ t') eqn:F'; [discriminate |].
  injection Hfirst as <- <-. injection Hsecond as <- <-.
  unfold JourneyResponse.of_orm. cbn [JourneyResponse.id Journey.id].
  split; [reflexivity |]. split; [apply uuid_str_length |].
  split; [apply uuid_str_nonempty |]. split; [now apply has_pk_false |].
  split; [| split; [exact Hnd' | split; [exact Hnd'' |]]].
  - intros E. apply has_pk_false in F'. apply F'. rewrite E.
    unfold ids. rewrite map_app, in_app_iff. right. now left.
  - intros request. now apply app_keeps_primary_key.
Qed.

(** Two creates of the same body. *)
Lemma created_id_is_generated_and_unique_witness :
  app terse (unreachable "down") 1 (POST_journeys trip) [] =
  (mkResponse 200
     (Model (JourneyResponse.mk "00000000-0000-4000-8000-000000000001"
               "Trip" "Plan my trip" None)),
   [Journey.mk "00000000-0000-4000-8000-000000000001" "Trip" "Plan my trip"
               None]) /\
  app terse (unreachable "down") 2 (POST_journeys trip)
    [Journey.mk "00000000-0000-4000-8000-000000000001" "Trip" "Plan my trip"
                None] =
  (mkResponse 200
     (Model (JourneyResponse.mk "00000000-0000-4000-8000-000000000002"
               "Trip" "Plan my trip" None)),
   [Journey.mk "00000000-0000-4000-8000-000000000001" "Trip" "Plan my trip"
               None;
    Journey.mk "00000000-0000-4000-8000-000000000002" "Trip" "Plan my trip"
               None]) /\
  "00000000-0000-4000-8000-000000000002" <>
  "00000000-0000-4000-8000-000000000001".
Proof.
  split; [reflexivity |]. split; [reflexivity |].
  exact (proj1 (proj2 (proj2 (proj2 (proj2
    (created_id_is_generated_and_unique terse
       (unreachable "down") (unreachable "down") 1 2 trip trip
       (JourneyCreate.mk "Trip" "Plan my trip" None)
       (JourneyCreate.mk "Trip" "Plan my trip" None)
       (JourneyResponse.mk "00000000-0000-4000-8000-000000000001"
          "Trip" "Plan my trip" None)
       (JourneyResponse.mk "00000000-0000-4000-8000-000000000002"
          "Trip" "Plan my trip" None)
       []
       [Journey.mk "00000000-0000-4000-8000-000000000001" "Trip"
                   "Plan my trip" None]
       [Journey.mk "00000000-0000-4000-8000-000000000001" "Trip"
                   "Plan my trip" None;
        Journey.mk "00000000-0000-4000-8000-000000000002" "Trip"
                   "Plan my trip" None]
       (NoDup_nil string) eq_refl eq_refl eq_refl eq_refl)))))).
Defined.







(** C9. Plain create stores and returns a record without aiResponse, also
    when the body supplies one.  With a fresh generated id and a name and a
    description the store can encode, the route appends that one row and
    answers it, whatever the body holds for [ai_response]; otherwise it
    answers 500 and stores nothing.  In every case a returned record has no
    aiResponse and every row the request added has none. *)
Theorem create_never_stores_ai_response
  (engine : Engine) (client : Mistral.t) (entropy : N) (body : json)
  (journey : JourneyCreate.t) (t : table) :
  validate_JourneyCreate body = inr journey ->
  let row := Journey.mk (uuid.str (uuid.uuid4 entropy))
               (JourneyCreate.name journey)
               (JourneyCreate.description journey) None in
  let result := app engine client entropy (POST_journeys body) t in
  (~ In (uuid.str (uuid.uuid4 entropy)) (ids t) ->
   encodable (JourneyCreate.name journey) = true ->
   encodable (JourneyCreate.description journey) = true ->
   result = (mkResponse 200 (Model (JourneyResponse.of_orm row)), t ++ [row])) /\
  (result = (mkResponse 200 (Model (JourneyResponse.of_orm row)), t ++ [row]) \/
   result = (mkResponse 500 (PlainText "Internal Server Error"), t)) /\
  (forall r, content_of (fst result) = Model r ->
             JourneyResponse.ai_response r = None) /\
  (forall stored, In stored (snd result) ->
                  In stored t \/ Journey.ai_response stored = None).
Proof.
  intros V row result. subst result.
  rewrite (create_journey_route engine client entropy body _ t V). cbv zeta.
  fold row. split; [| split; [| split]].
  - intros Hfresh Hname Hdescription. apply has_pk_false in Hfresh.
    now rewrite Hname, Hdescription, Hfresh.
  - destruct (encodable _ && encodable _); [| now right].
    destruct (has_pk _ t); [now right | now left].
  - intros r. destruct (encodable _ && encodable _);
      [| cbn [fst content_of]; discriminate].
    destruct (has_pk _ t); cbn [fst content_of]; [discriminate |].
    intros E. now injection E as <-.
  - intros stored. destruct (encodable _ && encodable _);
      [| cbn [snd]; now left].
    destruct (has_pk _ t); cbn [snd]; [now left |].
    rewrite in_app_iff. intros [Hin | [<- | []]]; [now left | now right].
Qed.

(** A plain create whose body supplies [ai_response]. *)
Lemma create_never_stores_ai_response_witness :
  validate_JourneyCreate trip_with_reply =
  inr (JourneyCreate.mk "Trip" "Plan my trip" (Some "from the client")) /\
  app terse (mocked "Bonjour!") 5 (POST_journeys trip_with_reply) [record_x] =
  (mkResponse 200
     (Model (JourneyResponse.mk "00000000-0000-4000-8000-000000000005"
               "Trip" "Plan my trip" None)),
   [record_x;
    Journey.mk "00000000-0000-4000-8000-000000000005" "Trip" "Plan my trip"
               None]).
Proof.
  split; [reflexivity |].
  apply (proj1 (create_never_stores_ai_response terse
                  (mocked "Bonjour!") 5 trip_with_reply
                  (JourneyCreate.mk "Trip" "Plan my trip"
                     (Some "from the client"))
                  [record_x] eq_refl)); [| reflexivity | reflexivity].
  intros [E | []]. discriminate E.
Defined.

(** C10. For an id that is not in the table, read-one, update and delete
    raise not-found with nothing written and nothing left pending, so the
    table after the request is the table before it. *)
Theorem absent_id_leaves_table_unchanged
  (engine : Engine) (client : Mistral.t) (entropy : N) (x : string) (body : json)
  (journey : JourneyCreate.t) (t : table) :
  ~ In x (ids t) ->
  (read_journey x (SessionLocal engine t) = (Raise not_found, SessionLocal engine t) /\
   update_journey x journey (SessionLocal engine t) =
   (Raise not_found, SessionLocal engine t) /\
   delete_journey x (SessionLocal engine t) = (Raise not_found, SessionLocal engine t)) /\
  snd (app engine client entropy (GET_journey x) t) = t /\
  snd (app engine client entropy (PUT_journey x body) t) = t /\
  snd (app engine client entropy (DELETE_journey x) t) = t.
Proof.
  intros Habsent. apply query_first_None in Habsent. split; [| split; [| split]].
  - unfold read_journey, update_journey, delete_journey, bind,
      db_query_first, SessionLocal. cbn [committed]. now rewrite Habsent.
  - now rewrite read_journey_route, Habsent.
  - destruct (valid_or_rejected body) as [[valid V] | [errors V]].
    + now rewrite (update_journey_route engine client entropy x body _ t V), Habsent.
    + cbn [app]. now rewrite (rejected_body _ _ _ _ _ _ t V).
  - now rewrite delete_journey_route, Habsent.
Qed.

(** The three routes addressed to an id that is not stored. *)
Lemma absent_id_leaves_table_unchanged_witness :
  ~ In "y" (ids [record_x]) /\
  snd (app terse (mocked "Bonjour!") 5 (GET_journey "y") [record_x]) = [record_x] /\
  snd (app terse (mocked "Bonjour!") 5 (PUT_journey "y" rename_A2_B2) [record_x]) =
  [record_x] /\
  snd (app terse (mocked "Bonjour!") 5 (DELETE_journey "y") [record_x]) = [record_x].
Proof.
  assert (Habsent : ~ In "y" (ids [record_x])).
  { intros [E | []]. discriminate E. }
  split; [exact Habsent |].
  exact (proj2 (absent_id_leaves_table_unchanged terse
                  (mocked "Bonjour!") 5 "y" rename_A2_B2
                  (JourneyCreate.mk "A2" "B2" None) [record_x] Habsent)).
Defined.

(** * Further properties of the routes *)

(** ** More on the table *)

Lemma query_first_stored (r : Journey.t) (t : table) :
  NoDup (ids t) -> In r t -> query_first (Journey.id r) t = Some r.
Proof.
  unfold query_first. induction t as [| x t IH]; intros Hnd Hin; [destruct Hin |].
  cbn [ids map] in Hnd. inversion Hnd as [| ? ? Hnotin Hnd']; subst.
  cbn [find]. destruct Hin as [-> | Hin].
  - now rewrite String.eqb_refl.
  - destruct (String.eqb_spec (Journey.id x) (Journey.id r)) as [E | _].
    + exfalso. apply Hnotin. rewrite E. unfold ids. now apply in_map.
    + now apply IH.
Qed.

Lemma of_orm_injective (a b : Journey.t) :
  JourneyResponse.of_orm a = JourneyResponse.of_orm b -> a = b.
Proof.
  destruct a, b. unfold JourneyResponse.of_orm. cbn. congruence.
Qed.

Lemma query_first_kept (pk other : string) (t : table) :
  other <> pk ->
  query_first other
    (filter (fun x => negb (String.eqb (Journey.id x) pk)) t) =
  query_first other t.
Proof.
  intros Hneq. unfold query_first. induction t as [| r t IH]; [reflexivity |].
  cbn [filter find].
  destruct (String.eqb_spec (Journey.id r) pk) as [E | E]; cbn [negb find].
  - destruct (String.eqb_spec (Journey.id r) other) as [E' | _];
      [congruence | exact IH].
  - destruct (String.eqb (Journey.id r) other); [reflexivity | exact IH].
Qed.

Lemma filter_fresh (pk : string) (t : table) :
  ~ In pk (ids t) ->
  filter (fun x => negb (String.eqb (Journey.id x) pk)) t = t.
Proof.
  induction t as [| r t IH]; intros Hfresh; [reflexivity |].
  cbn [filter]. cbn [ids map In] in Hfresh.
  destruct (String.eqb_spec (Journey.id r) pk) as [E | _]; cbn [negb].
  - exfalso. apply Hfresh. now left.
  - f_equal. apply IH. intros Hin. apply Hfresh. now right.
Qed.

Lemma length_deleted (pk : string) (t : table) :
  NoDup (ids t) -> In pk (ids t) ->
  S (List.length (filter (fun x => negb (String.eqb (Journey.id x) pk)) t)) =
  List.length t.
Proof.
  induction t as [| r t IH]; intros Hnd Hin; [destruct Hin |].
  cbn [ids map] in Hnd, Hin. inversion Hnd as [| ? ? Hnotin Hnd']; subst.
  cbn [filter List.length].
  destruct (String.eqb_spec (Journey.id r) pk) as [E | E]; cbn [negb List.length].
  - subst pk. now rewrite filter_fresh.
  - f_equal. apply IH; [exact Hnd' |]. destruct Hin as [Hin | Hin];
      [contradiction | exact Hin].
Qed.

(** ** Reading *)

(** X1. The greeting route answers 200 with [Hello, ] followed by the path
    parameter as it came, leaves the table alone, and two different
    parameters never get the same answer. *)
Theorem greeting_embeds_the_name_verbatim
  (engine : Engine) (client : Mistral.t) (entropy : N) (name : string) (t : table) :
  app engine client entropy (GET_bonjour name) t =
  (mkResponse 200 (Dict [("greeting", ("Hello, " ++ name)%string)]), t) /\
  forall client' entropy' name' t',
    fst (app engine client' entropy' (GET_bonjour name') t') =
    fst (app engine client entropy (GET_bonjour name) t) ->
    name' = name.
Proof.
  split; [reflexivity |].
  intros client' entropy' name' t' E. cbn in E. now injection E.
Qed.

(** X2. The listing answers 200 with every stored row, in table order; when
    the keys are pairwise distinct a record is in the listing exactly when
    reading its id answers that record. *)
Theorem listing_agrees_with_read_one
  (engine : Engine) (client : Mistral.t) (entropy : N) (t : table) :
  NoDup (ids t) ->
  app engine client entropy GET_journeys t =
  (mkResponse 200 (Models (map JourneyResponse.of_orm t)), t) /\
  forall r,
    In r (map JourneyResponse.of_orm t) <->
    fst (app engine client entropy (GET_journey (JourneyResponse.id r)) t) =
    mkResponse 200 (Model r).
Proof.
  intros Hnd. split; [reflexivity |].
  intros r. rewrite read_journey_route. split.
  - intros Hin. apply in_map_iff in Hin as (j & <- & Hin).
    change (JourneyResponse.id (JourneyResponse.of_orm j)) with (Journey.id j).
    now rewrite (query_first_stored j t Hnd Hin).
  - destruct (query_first (JourneyResponse.id r) t) as [j |] eqn:E;
      cbn [fst]; [| discriminate].
    intros Hresp. injection Hresp as <-.
    apply query_first_Some in E as [_ Hin]. now apply in_map.
Qed.

(** X3. The three reading routes leave the table as it is, so asking again,
    whoever serves the request, gets the same answer. *)
Theorem reading_routes_are_repeatable
  (engine : Engine) (client client' : Mistral.t) (entropy entropy' : N) (request : Request)
  (t : table) :
  match request with
  | GET_bonjour _ | GET_journey _ | GET_journeys => True
  | _ => False
  end ->
  snd (app engine client entropy request t) = t /\
  app engine client' entropy' request (snd (app engine client entropy request t)) =
  app engine client entropy request t.
Proof.
  destruct request as [body | name | body | pk | | pk body | pk];
    intros Hread; try destruct Hread.
  - split; reflexivity.
  - rewrite !read_journey_route.
    destruct (query_first pk t) eqn:E; cbn [snd]; rewrite E; now split.
  - split; reflexivity.
Qed.

(** ** Deleting *)

(** X4. Deleting a stored id answers 200 with the fixed message and removes
    the rows of that id and no other: the id is no longer a key, every other
    id reads as before, and with pairwise distinct keys the table is one row
    shorter. *)
Theorem delete_removes_exactly_that_record
  (engine : Engine) (client : Mistral.t) (entropy : N) (x : string) (r : Journey.t) (t : table) :
  query_first x t = Some r ->
  let t' := snd (app engine client entropy (DELETE_journey x) t) in
  fst (app engine client entropy (DELETE_journey x) t) =
  mkResponse 200 (Dict [("message", "Journey deleted successfully")]) /\
  query_first x t' = None /\
  (forall y, y <> x -> query_first y t' = query_first y t) /\
  (forall row, In row t' <-> In row t /\ Journey.id row <> x) /\
  (NoDup (ids t) -> S (List.length t') = List.length t).
Proof.
  intros E t'. subst t'. rewrite delete_journey_route, E. cbn [fst snd].
  split; [reflexivity |]. split; [apply query_first_deleted |].
  split; [intros y Hneq; now apply query_first_kept |]. split.
  - intros row. rewrite filter_In. split; intros [Hin Hp]; split; trivial.
    + intros Eid. rewrite Eid, String.eqb_refl in Hp. discriminate Hp.
    + now destruct (String.eqb_spec (Journey.id row) x).
  - intros Hnd. apply length_deleted; [exact Hnd |].
    apply query_first_Some in E as [<- Hin]. unfold ids. now apply in_map.
Qed.

(** The delete of the update example. *)
Lemma delete_removes_exactly_that_record_witness :
  app terse (unreachable "down") 0 (DELETE_journey "x") [record_x; record_5] =
  (mkResponse 200 (Dict [("message", "Journey deleted successfully")]),
   [record_5]) /\
  query_first "x"
    (snd (app terse (unreachable "down") 0 (DELETE_journey "x")
            [record_x; record_5])) = None.
Proof.
  split; [reflexivity |].
  exact (proj1 (proj2
    (delete_removes_exactly_that_record terse (unreachable "down") 0 "x" record_x
       [record_x; record_5] eq_refl))).
Defined.

(** X5. Deleting the same id again answers 404 and changes nothing more. *)
Theorem second_delete_is_not_found
  (engine : Engine) (client client' : Mistral.t) (entropy entropy' : N) (x : string) (t : table) :
  app engine client' entropy' (DELETE_journey x)
    (snd (app engine client entropy (DELETE_journey x) t)) =
  (mkResponse 404 (Dict [("detail", "Journey not found")]),
   snd (app engine client entropy (DELETE_journey x) t)).
Proof.
  rewrite !delete_journey_route.
  destruct (query_first x t) eqn:E; cbn [snd].
  - now rewrite query_first_deleted.
  - now rewrite E.
Qed.

(** Two stored records, listed and read one by one. *)
Lemma listing_agrees_with_read_one_witness :
  app terse (unreachable "down") 0 GET_journeys [record_x; record_5] =
  (mkResponse 200
     (Models [JourneyResponse.of_orm record_x;
              JourneyResponse.of_orm record_5]),
   [record_x; record_5]).
Proof.
  assert (Hnd : NoDup (ids [record_x; record_5])).
  { repeat constructor; cbn; intuition discriminate. }
  exact (proj1 (listing_agrees_with_read_one terse (unreachable "down") 0
                  [record_x; record_5] Hnd)).
Defined.

(** Reading [x] twice, the second time through another client. *)
Lemma reading_routes_are_repeatable_witness :
  app terse (mocked "Bonjour!") 7 (GET_journey "x")
    (snd (app terse (unreachable "down") 0 (GET_journey "x") [record_x])) =
  app terse (unreachable "down") 0 (GET_journey "x") [record_x].
Proof.
  exact (proj2 (reading_routes_are_repeatable terse
                  (unreachable "down") (mocked "Bonjour!") 0 7
                  (GET_journey "x") [record_x] I)).
Defined.

(** ** Updating *)

Lemma overwrite_twice (pk name1 description1 name2 description2 : string)
  (r : Journey.t) :
  overwrite pk name2 description2 (overwrite pk name1 description1 r) =
  overwrite pk name2 description2 r.
Proof.
  unfold overwrite.
  destruct (String.eqb (Journey.id r) pk) eqn:E;
    cbn [Journey.id Journey.ai_response]; now rewrite E.
Qed.

(** X6. Of two updates of the same id the later one decides, provided the
    store can encode its name and description: after the first, whatever
    became of it, the second answers and leaves exactly what it would have
    answered and left alone.  In particular such an update sent twice is an
    update sent once. *)
Theorem later_update_wins
  (engine : Engine) (client client' : Mistral.t) (entropy entropy' : N)
  (x : string) (body1 body2 : json) (journey1 journey2 : JourneyCreate.t)
  (t : table) :
  validate_JourneyCreate body1 = inr journey1 ->
  validate_JourneyCreate body2 = inr journey2 ->
  encodable (JourneyCreate.name journey2) = true ->
  encodable (JourneyCreate.description journey2) = true ->
  app engine client' entropy' (PUT_journey x body2)
    (snd (app engine client entropy (PUT_journey x body1) t)) =
  app engine client entropy (PUT_journey x body2) t.
Proof.
  intros V1 V2 Hname Hdescription.
  rewrite (update_journey_route engine client entropy x body1 journey1 t V1).
  rewrite (update_journey_route engine client entropy x body2 journey2 t V2).
  destruct (query_first x t) as [r |] eqn:E; cbn [snd].
  - destruct (encodable (JourneyCreate.name journey1) && _); cbn [snd].
    + rewrite (update_journey_route engine client' entropy' x body2 journey2 _ V2).
      rewrite query_first_map, E by apply overwrite_id. cbn [option_map].
      rewrite Hname, Hdescription. cbn [andb].
      unfold overwrite at 1. apply query_first_Some in E as [Hid _].
      rewrite Hid, String.eqb_refl. cbn [Journey.ai_response].
      rewrite map_map. f_equal. apply map_ext. intros a. apply overwrite_twice.
    + rewrite (update_journey_route engine client' entropy' x body2 journey2 t V2).
      now rewrite E.
  - rewrite (update_journey_route engine client' entropy' x body2 journey2 t V2).
    now rewrite E.
Qed.

(** Renaming [x] to the trip and then to A2/B2. *)
Lemma later_update_wins_witness :
  app terse (mocked "Bonjour!") 7 (PUT_journey "x" rename_A2_B2)
    (snd (app terse (unreachable "down") 0 (PUT_journey "x" trip) [record_x])) =
  (mkResponse 200 (Model (JourneyResponse.mk "x" "A2" "B2" (Some "C"))),
   [Journey.mk "x" "A2" "B2" (Some "C")]).
Proof.
  exact (later_update_wins terse (unreachable "down") (mocked "Bonjour!") 0 7
           "x" trip rename_A2_B2
           (JourneyCreate.mk "Trip" "Plan my trip" None)
           (JourneyCreate.mk "A2" "B2" None) [record_x] eq_refl eq_refl
           eq_refl eq_refl).
Defined.

(** ** Creating *)

(** X7. A completion without any choice makes chat-create answer 500 with
    the message of the index error, and nothing is stored. *)
Theorem chat_without_choices_is_500
  (engine : Engine) (client : Mistral.t) (entropy : N) (body : json)
  (journey : JourneyCreate.t) (chat_response : Mistral.ChatCompletionResponse)
  (t : table) :
  validate_JourneyCreate body = inr journey ->
  Mistral.chat_complete client model
    [[("role", "user"); ("content", JourneyCreate.description journey)]]
  = Return chat_response ->
  Mistral.choices chat_response = [] ->
  app engine client entropy (POST_journey_chat body) t =
  (mkResponse 500 (Dict [("detail", "list index out of range")]), t).
Proof.
  intros V Hret Hnone.
  rewrite (chat_with_mistral_route engine client entropy body journey t V).
  now rewrite Hret, Hnone.
Qed.

Lemma chat_without_choices_is_500_witness :
  app terse speechless 5 (POST_journey_chat trip) [record_x] =
  (mkResponse 500 (Dict [("detail", "list index out of range")]), [record_x]).
Proof.
  exact (chat_without_choices_is_500 terse speechless 5 trip
           (JourneyCreate.mk "Trip" "Plan my trip" None)
           (Mistral.mkResponse []) [record_x] eq_refl eq_refl eq_refl).
Defined.

(** X8. When the id chat-create generates is already a key, and name,
    description and reply are text the store can encode, the insert is
    refused: the route answers 500 with the integrity error the engine
    prints for the refused row although the AI replied, and the table is
    what it was. *)
Theorem chat_key_collision_stores_nothing
  (engine : Engine) (client : Mistral.t) (entropy : N) (body : json)
  (journey : JourneyCreate.t) (chat_response : Mistral.ChatCompletionResponse)
  (choice : Mistral.ChatCompletionChoice)
  (rest : list Mistral.ChatCompletionChoice) (t : table) :
  validate_JourneyCreate body = inr journey ->
  Mistral.chat_complete client model
    [[("role", "user"); ("content", JourneyCreate.description journey)]]
  = Return chat_response ->
  Mistral.choices chat_response = choice :: rest ->
  In (uuid.str (uuid.uuid4 entropy)) (ids t) ->
  encodable (JourneyCreate.name journey) = true ->
  encodable (JourneyCreate.description journey) = true ->
  encodable (Mistral.content (Mistral.message choice)) = true ->
  app engine client entropy (POST_journey_chat body) t =
  (mkResponse 500
     (Dict [("detail",
             integrity_error engine
               (Journey.mk (uuid.str (uuid.uuid4 entropy))
                  (JourneyCreate.name journey)
                  (JourneyCreate.description journey)
                  (Some (Mistral.content (Mistral.message choice)))))]), t).
Proof.
  intros V Hret Hchoices Hused Hname Hdescription Hreply.
  rewrite (chat_with_mistral_route engine client entropy body journey t V).
  rewrite Hret, Hchoices. cbv zeta. unfold first_unencodable. cbn [find].
  rewrite Hname, Hdescription, Hreply. cbn [negb].
  apply has_pk_true in Hused. now rewrite Hused.
Qed.

(** A second chat-create that draws the id of the stored trip. *)
Lemma chat_key_collision_stores_nothing_witness :
  status_code
    (fst (app terse (mocked "Bonjour!") 5 (POST_journey_chat trip) [record_5]))
  = 500 /\
  snd (app terse (mocked "Bonjour!") 5 (POST_journey_chat trip) [record_5]) =
  [record_5].
Proof.
  pose proof (chat_key_collision_stores_nothing terse (mocked "Bonjour!") 5
                trip (JourneyCreate.mk "Trip" "Plan my trip" None)
                (Mistral.mkResponse
                   [Mistral.mkChoice (Mistral.mkMessage "Bonjour!")])
                (Mistral.mkChoice (Mistral.mkMessage "Bonjour!")) []
                [record_5] eq_refl eq_refl eq_refl (or_introl eq_refl)
                eq_refl eq_refl eq_refl) as Hcollision.
  now rewrite Hcollision.
Defined.

(** X9. Plain create answers 200 exactly when the generated id is not yet a
    key and the store can encode the name and the description; otherwise
    the error of the commit is not caught by the handler, the answer is the
    bare 500 page, and the table is what it was. *)
Theorem create_succeeds_exactly_on_a_fresh_key
  (engine : Engine) (client : Mistral.t) (entropy : N) (body : json)
  (journey : JourneyCreate.t) (t : table) :
  validate_JourneyCreate body = inr journey ->
  (status_code (fst (app engine client entropy (POST_journeys body) t)) = 200 <->
   ~ In (uuid.str (uuid.uuid4 entropy)) (ids t) /\
   encodable (JourneyCreate.name journey) = true /\
   encodable (JourneyCreate.description journey) = true) /\
  (status_code (fst (app engine client entropy (POST_journeys body) t)) <> 200 ->
   app engine client entropy (POST_journeys body) t =
   (mkResponse 500 (PlainText "Internal Server Error"), t)).
Proof.
  intros V. rewrite (create_journey_route engine client entropy body journey t V).
  cbv zeta. rewrite <- has_pk_false.
  destruct (encodable (JourneyCreate.name journey));
    destruct (encodable (JourneyCreate.description journey));
    destruct (has_pk _ t); cbn [andb fst status_code];
    (split; [split; [intros E; try discriminate E; now repeat split
                    | intros (E1 & E2 & E3); try discriminate; reflexivity]
            | intros E; try reflexivity; now destruct E]).
Qed.

(** A create that draws the id of the stored trip. *)
Lemma create_succeeds_exactly_on_a_fresh_key_witness :
  app terse (mocked "Bonjour!") 5 (POST_journeys trip) [record_5] =
  (mkResponse 500 (PlainText "Internal Server Error"), [record_5]).
Proof.
  apply (proj2 (create_succeeds_exactly_on_a_fresh_key terse
                  (mocked "Bonjour!") 5 trip
                  (JourneyCreate.mk "Trip" "Plan my trip" None)
                  [record_5] eq_refl)).
  discriminate.
Defined.

(** ** What the routes depend on *)

(** X10. The handlers read the body through [name] and [description] only:
    two accepted bodies that agree on both get the same answer and leave the
    same table on each of the three routes that take a body, whatever else
    they hold. *)
Theorem bodies_count_by_name_and_description
  (engine : Engine) (client : Mistral.t) (entropy : N) (x : string) (body1 body2 : json)
  (journey1 journey2 : JourneyCreate.t) (t : table) :
  validate_JourneyCreate body1 = inr journey1 ->
  validate_JourneyCreate body2 = inr journey2 ->
  JourneyCreate.name journey1 = JourneyCreate.name journey2 ->
  JourneyCreate.description journey1 = JourneyCreate.description journey2 ->
  app engine client entropy (POST_journey_chat body1) t =
  app engine client entropy (POST_journey_chat body2) t /\
  app engine client entropy (POST_journeys body1) t =
  app engine client entropy (POST_journeys body2) t /\
  app engine client entropy (PUT_journey x body1) t =
  app engine client entropy (PUT_journey x body2) t.
Proof.
  intros V1 V2 Hname Hdescription.
  rewrite (chat_with_mistral_route engine client entropy body1 journey1 t V1),
    (chat_with_mistral_route engine client entropy body2 journey2 t V2),
    (create_journey_route engine client entropy body1 journey1 t V1),
    (create_journey_route engine client entropy body2 journey2 t V2),
    (update_journey_route engine client entropy x body1 journey1 t V1),
    (update_journey_route engine client entropy x body2 journey2 t V2).
  now rewrite Hname, Hdescription.
Qed.

(** A body with a reply and an id of the client's own against the plain one. *)
Lemma bodies_count_by_name_and_description_witness :
  app terse (mocked "Bonjour!") 5 (POST_journey_chat trip_with_reply) [record_x] =
  app terse (mocked "Bonjour!") 5 (POST_journey_chat trip_with_id) [record_x].
Proof.
  exact (proj1 (bodies_count_by_name_and_description terse (mocked "Bonjour!") 5 "x"
                  trip_with_reply trip_with_id
                  (JourneyCreate.mk "Trip" "Plan my trip"
                     (Some "from the client"))
                  (JourneyCreate.mk "Trip" "Plan my trip" None)
                  [record_x] eq_refl eq_refl eq_refl eq_refl)).
Defined.

(** X11. Chat-create is the only route that consults the AI client, and the
    two creating routes are the only ones that draw an id: any other request
    is answered alike, and leaves the same table, under any two clients,
    respectively under any two draws. *)
Theorem client_and_entropy_serve_creation_only
  (engine : Engine) (client1 client2 : Mistral.t) (entropy1 entropy2 : N) (request : Request)
  (t : table) :
  ((forall body, request <> POST_journey_chat body) ->
   app engine client1 entropy1 request t = app engine client2 entropy1 request t) /\
  ((forall body, request <> POST_journey_chat body) ->
   (forall body, request <> POST_journeys body) ->
   app engine client1 entropy1 request t = app engine client1 entropy2 request t).
Proof.
  split.
  - intros Hchat. destruct request as [body | | | | | |]; try reflexivity.
    now destruct (Hchat body).
  - intros Hchat Hcreate.
    destruct request as [body | | body | | | |]; try reflexivity.
    + now destruct (Hchat body).
    + now destruct (Hcreate body).
Qed.

(** X12. Chat-create consults the client once, for the configured model and
    the single user message holding the description: two clients that agree
    on that one call are indistinguishable through the route. *)
Theorem chat_create_sends_the_description_alone
  (engine : Engine) (client1 client2 : Mistral.t) (entropy : N) (body : json)
  (journey : JourneyCreate.t) (t : table) :
  validate_JourneyCreate body = inr journey ->
  Mistral.chat_complete client1 "mistral-large-latest"
    [[("role", "user"); ("content", JourneyCreate.description journey)]] =
  Mistral.chat_complete client2 "mistral-large-latest"
    [[("role", "user"); ("content", JourneyCreate.description journey)]] ->
  app engine client1 entropy (POST_journey_chat body) t =
  app engine client2 entropy (POST_journey_chat body) t.
Proof.
  intros V Hcall.
  rewrite (chat_with_mistral_route engine client1 entropy body journey t V),
    (chat_with_mistral_route engine client2 entropy body journey t V).
  unfold model. now rewrite Hcall.
Qed.

(** A client that replies only to the trip's description against one that
    replies to everything. *)
Lemma chat_create_sends_the_description_alone_witness :
  app terse (mocked "Bonjour!") 5 (POST_journey_chat trip) [record_x] =
  app terse picky 5 (POST_journey_chat trip) [record_x].
Proof.
  exact (chat_create_sends_the_description_alone terse (mocked "Bonjour!") picky 5
           trip (JourneyCreate.mk "Trip" "Plan my trip" None) [record_x]
           eq_refl eq_refl).
Defined.

(** ** What the routes keep *)

(** X13. No request changes the id or the aiResponse of a record: whatever
    is stored under an id before and after a request carries the same two
    values. *)
Theorem id_and_ai_response_are_never_rewritten
  (engine : Engine) (client : Mistral.t) (entropy : N) (request : Request) (t : table)
  (y : string) (r r' : Journey.t) :
  query_first y t = Some r ->
  query_first y (snd (app engine client entropy request t)) = Some r' ->
  Journey.id r' = Journey.id r /\
  Journey.ai_response r' = Journey.ai_response r.
Proof.
  intros E.
  assert (Hsame : query_first y t = Some r' ->
                  Journey.id r' = Journey.id r /\
                  Journey.ai_response r' = Journey.ai_response r).
  { rewrite E. intros [= <-]. now split. }
  assert (Hadded : forall row, query_first y (t ++ [row]) = Some r' ->
                   Journey.id r' = Journey.id r /\
                   Journey.ai_response r' = Journey.ai_response r).
  { intros row. rewrite query_first_app, E. intros [= <-]. now split. }
  by_route engine client entropy request t; trivial; try apply Hadded.
  - rewrite query_first_map, E by apply overwrite_id. cbn [option_map].
    intros [= <-]. rewrite overwrite_id. split; [reflexivity |].
    unfold overwrite. now destruct (String.eqb (Journey.id r) pk).
  - destruct (String.eqb_spec y pk) as [-> | Hneq].
    + now rewrite query_first_deleted.
    + rewrite query_first_kept by exact Hneq. exact Hsame.
Qed.

(** The update example keeps id [x] and reply [C]. *)
Lemma id_and_ai_response_are_never_rewritten_witness :
  Journey.id (Journey.mk "x" "A2" "B2" (Some "C")) = Journey.id record_x /\
  Journey.ai_response (Journey.mk "x" "A2" "B2" (Some "C")) =
  Journey.ai_response record_x.
Proof.
  exact (id_and_ai_response_are_never_rewritten terse (unreachable "down") 0
           (PUT_journey "x" rename_A2_B2) [record_x] "x" record_x
           (Journey.mk "x" "A2" "B2" (Some "C")) eq_refl eq_refl).
Defined.

(** X14. Keys come and go by creation and deletion only: a key stays unless
    the request deletes it, a key that appears is the id generated for a
    creating request, and no request adds more than one row. *)
Theorem keys_change_by_create_and_delete_only
  (engine : Engine) (client : Mistral.t) (entropy : N) (request : Request) (t : table) :
  let t' := snd (app engine client entropy request t) in
  (forall y, In y (ids t) -> request <> DELETE_journey y -> In y (ids t')) /\
  (forall y, In y (ids t') ->
     In y (ids t) \/
     (y = uuid.str (uuid.uuid4 entropy) /\
      exists body,
        request = POST_journey_chat body \/ request = POST_journeys body)) /\
  List.length t' <= S (List.length t).
Proof.
  intros t'. subst t'.
  by_route engine client entropy request t; (split; [| split]);
    rewrite ?ids_overwrite, ?length_map;
    try solve [ intros y Hin _; exact Hin
              | intros y Hin; now left
              | lia
              | intros y Hin _; unfold ids; rewrite map_app;
                apply in_or_app; now left
              | rewrite length_app; cbn [List.length]; lia
              | intros y Hin; unfold ids in Hin; rewrite map_app in Hin;
                apply in_app_or in Hin as [Hin | [<- | []]];
                [ now left
                | right; split; [reflexivity |]; eexists;
                  first [now left | now right] ] ].
  - intros y Hin Hneq. unfold ids in *.
    apply in_map_iff in Hin as (row & <- & Hin).
    apply in_map. apply filter_In. split; [exact Hin |].
    destruct (String.eqb_spec (Journey.id row) pk) as [Eid | _];
      [rewrite Eid in Hneq; now destruct Hneq | reflexivity].
  - intros y Hin. left. eapply ids_filter_incl, Hin.
  - pose proof (filter_length_le
                  (fun x => negb (String.eqb (Journey.id x) pk)) t). lia.
Qed.

(** ** Case analysis over the routes *)

Lemma query_first_present (pk : string) (t : table) :
  In pk (ids t) -> exists r, query_first pk t = Some r.
Proof.
  intros Hin. destruct (query_first pk t) as [r |] eqn:E; [now exists r |].
  now apply query_first_None in E.
Qed.


(** X15. A request that is not answered 200 leaves the table exactly as it
    was, on every route. *)
Theorem only_a_200_changes_the_table
  (engine : Engine) (client : Mistral.t) (entropy : N) (request : Request) (t : table) :
  status_code (fst (app engine client entropy request t)) <> 200 ->
  snd (app engine client entropy request t) = t.
Proof.
  by_route engine client entropy request t; intros Hfailed;
    solve [reflexivity | now destruct Hfailed].
Qed.

(** An update of a stored id that is refused for its body. *)
Lemma only_a_200_changes_the_table_witness :
  snd (app terse (mocked "Bonjour!") 5 (PUT_journey "x" nameless) [record_x]) =
  [record_x].
Proof.
  apply (only_a_200_changes_the_table terse (mocked "Bonjour!") 5
           (PUT_journey "x" nameless) [record_x]).
  discriminate.
Defined.


(** ** Tables the service can reach *)

Lemma app_keeps_canonical_keys (engine : Engine) (client : Mistral.t) (entropy : N)
  (request : Request) (t : table) :
  Forall (fun pk => String.length pk = 36) (ids t) ->
  Forall (fun pk => String.length pk = 36)
         (ids (snd (app engine client entropy request t))).
Proof.
  intros Hall.
  by_route engine client entropy request t; trivial.
  - unfold ids. rewrite map_app. apply Forall_app. split; [exact Hall |].
    constructor; [apply uuid_str_length | constructor].
  - unfold ids. rewrite map_app. apply Forall_app. split; [exact Hall |].
    constructor; [apply uuid_str_length | constructor].
  - now rewrite ids_overwrite.
  - rewrite Forall_forall in *. intros pk' Hin. apply Hall.
    eapply ids_filter_incl, Hin.
Qed.

(** X17. Whatever requests have been served since the table was created,
    its keys are pairwise distinct and each is a 36-character id. *)
Theorem reachable_tables_have_distinct_generated_keys (t : table) :
  reachable t ->
  NoDup (ids t) /\ Forall (fun pk => String.length pk = 36) (ids t).
Proof.
  induction 1 as [| engine client entropy request t Hreach [Hnd Hall]].
  - split; constructor.
  - split; [now apply app_keeps_primary_key | now apply app_keeps_canonical_keys].
Qed.

(** The table after a chat-create and a plain create. *)
Lemma reachable_tables_have_distinct_generated_keys_witness :
  NoDup (ids (snd (app terse (mocked "Bonjour!") 6 (POST_journeys trip)
                     (snd (app terse (mocked "Bonjour!") 5 (POST_journey_chat trip)
                             [])))))
  /\
  Forall (fun pk => String.length pk = 36)
    (ids (snd (app terse (mocked "Bonjour!") 6 (POST_journeys trip)
                 (snd (app terse (mocked "Bonjour!") 5 (POST_journey_chat trip)
                         []))))).
Proof.
  exact (reachable_tables_have_distinct_generated_keys _
           (reachable_served terse (mocked "Bonjour!") 6 (POST_journeys trip) _
              (reachable_served terse (mocked "Bonjour!") 5 (POST_journey_chat trip)
                 _ reachable_created))).
Defined.

(** ** Create and delete *)

(** X18. Deleting the id a create returned answers 200 and restores the
    table the create started from, row for row. *)
Theorem create_then_delete_restores_the_table
  (engine : Engine) (client client' : Mistral.t) (entropy entropy' : N) (body : json)
  (journey : JourneyCreate.t) (r : JourneyResponse.t) (t t' : table) :
  validate_JourneyCreate body = inr journey ->
  app engine client entropy (POST_journeys body) t = (mkResponse 200 (Model r), t') ->
  app engine client' entropy' (DELETE_journey (JourneyResponse.id r)) t' =
  (mkResponse 200 (Dict [("message", "Journey deleted successfully")]), t).
Proof.
  intros V. rewrite (create_journey_route engine client entropy body journey t V).
  cbv zeta. destruct (encodable _ && encodable _); [| discriminate].
  destruct (has_pk _ t) eqn:F; [discriminate |].
  intros E. injection E as <- <-.
  change (JourneyResponse.id (JourneyResponse.of_orm ?j)) with (Journey.id j).
  cbn [Journey.id].
  rewrite delete_journey_route, query_first_added by exact F.
  rewrite filter_app, filter_fresh by now apply has_pk_false.
  cbn [filter Journey.id]. now rewrite String.eqb_refl, app_nil_r.
Qed.

Lemma create_then_delete_restores_the_table_witness :
  app terse (unreachable "down") 9
    (DELETE_journey "00000000-0000-4000-8000-000000000005")
    [record_x; record_5] =
  (mkResponse 200 (Dict [("message", "Journey deleted successfully")]),
   [record_x]).
Proof.
  exact (create_then_delete_restores_the_table terse
           (mocked "Bonjour!") (unreachable "down") 5 9 trip
           (JourneyCreate.mk "Trip" "Plan my trip" None)
           (JourneyResponse.of_orm record_5) [record_x] [record_x; record_5]
           eq_refl eq_refl).
Defined.

(** ** Bodies *)

(** X19. A body is accepted exactly when it is an object whose [name] and
    [description] are strings and whose [ai_response] is a string, null or
    absent; the accepted request carries exactly those values. *)
Theorem accepted_bodies (body : json) (journey : JourneyCreate.t) :
  validate_JourneyCreate body = inr journey <->
  exists items,
    body = JObject items /\
    dict_get "name" items = Some (JString (JourneyCreate.name journey)) /\
    dict_get "description" items =
    Some (JString (JourneyCreate.description journey)) /\
    match JourneyCreate.ai_response journey with
    | Some reply => dict_get "ai_response" items = Some (JString reply)
    | None =>
        dict_get "ai_response" items = None \/
        dict_get "ai_response" items = Some JNull
    end.
Proof.
  split.
  - destruct body as [| b | n | s | elements | items]; try discriminate.
    intros V. exists items. split; [reflexivity |]. revert V.
    cbn [validate_JourneyCreate]. unfold validate_str, validate_optional_str.
    destruct (dict_get "name" items) as [[] |];
      destruct (dict_get "description" items) as [[] |];
      destruct (dict_get "ai_response" items) as [[] |];
      cbn [errors_of]; try discriminate;
      intros [= <-]; cbn [JourneyCreate.name JourneyCreate.description
                          JourneyCreate.ai_response]; repeat split; auto.
  - intros (items & -> & Hname & Hdescription & Hreply).
    cbn [validate_JourneyCreate]. unfold validate_str, validate_optional_str.
    rewrite Hname, Hdescription. destruct journey as [n d [reply |]];
      cbn [JourneyCreate.name JourneyCreate.description
           JourneyCreate.ai_response] in *.
    + now rewrite Hreply.
    + now destruct Hreply as [-> | ->].
Qed.





(** ** Start-up *)

(** X21. The module loads exactly when the environment binds
    [MISTRAL_API_KEY] to a non-empty string, and the client is then built
    with that string; an empty value stops the import like a missing one. *)
Theorem api_key_must_be_set_and_not_empty (environ : list (string * string)) :
  (forall api_key,
     load_api_key environ = inr api_key <->
     getenv "MISTRAL_API_KEY" environ = Some api_key /\ api_key <> "") /\
  (load_api_key environ = inl api_key_error <->
   getenv "MISTRAL_API_KEY" environ = None \/
   getenv "MISTRAL_API_KEY" environ = Some "").
Proof.
  unfold load_api_key.
  destruct (getenv "MISTRAL_API_KEY" environ) as [value |]; split.
  - intros api_key. destruct (String.eqb_spec value "") as [-> | Hvalue]; split.
    + discriminate.
    + intros [[= <-] Hempty]. now destruct Hempty.
    + intros [= <-]. now split.
    + now intros [[= <-] _].
  - destruct (String.eqb_spec value "") as [-> | Hvalue]; split.
    + now right.
    + reflexivity.
    + discriminate.
    + intros [Hnone | [= ->]]; [discriminate | now destruct Hvalue].
  - intros api_key. split; [discriminate | now intros [Hsome _]].
  - split; [now left | reflexivity].
Qed.

(** ** The shape of a generated id *)

Lemma testbit_uuid4 (entropy k : N) :
  N.testbit (uuid.uuid4 entropy) k =
  (((N.testbit (uuid.int_from_bytes entropy) k
     && negb (N.testbit (N.shiftl 0xc000 48) k)
     || N.testbit (N.shiftl 0x8000 48) k)
    && negb (N.testbit (N.shiftl 0xf000 64) k))
   || N.testbit (N.shiftl 4 76) k)%bool.
Proof.
  unfold uuid.uuid4. cbv zeta.
  now rewrite N.lor_spec, N.ldiff_spec, N.lor_spec, N.ldiff_spec.
Qed.

(** The four bits from [k] on, read as a number. *)
Lemma nibble_value (x k v : N) :
  (v < 16)%N ->
  (forall i, (i < 4)%N -> N.testbit x (i + k) = N.testbit v i) ->
  N.land (N.shiftr x k) 15 = v.
Proof.
  intros Hv Hbits. apply N.bits_inj. intros n.
  rewrite N.land_spec, N.shiftr_spec'.
  destruct (N.lt_ge_cases n 4) as [Hlow | Hhigh].
  - rewrite Hbits by exact Hlow.
    assert (Hn : n = 0%N \/ n = 1%N \/ n = 2%N \/ n = 3%N) by lia.
    destruct Hn as [-> | [-> | [-> | ->]]]; apply Bool.andb_true_r.
  - rewrite (N.bits_above_log2 15 n) by (change (N.log2 15) with 3%N; lia).
    rewrite Bool.andb_false_r. symmetry.
    destruct (N.eq_dec v 0) as [-> | Hpos]; [apply N.bits_0 |].
    apply N.bits_above_log2.
    apply N.lt_le_trans with 4%N; [| exact Hhigh].
    apply N.log2_lt_pow2; [lia | exact Hv].
Qed.


Lemma version_nibble (entropy : N) :
  uuid.nibble (uuid.uuid4 entropy) 12 = "4"%char.
Proof.
  unfold uuid.nibble. change (4 * N.of_nat (31 - 12))%N with 76%N.
  rewrite (nibble_value (uuid.uuid4 entropy) 76 4); [reflexivity | lia |].
  intros i Hi. rewrite testbit_uuid4.
  assert (Hc : i = 0%N \/ i = 1%N \/ i = 2%N \/ i = 3%N) by lia.
  destruct Hc as [-> | [-> | [-> | ->]]];
    destruct (N.testbit (uuid.int_from_bytes entropy) _); reflexivity.
Qed.

Lemma variant_nibble (entropy : N) :
  In (uuid.nibble (uuid.uuid4 entropy) 16) ["8"; "9"; "a"; "b"]%char.
Proof.
  unfold uuid.nibble. change (4 * N.of_nat (31 - 16))%N with 60%N.
  set (b0 := N.testbit (uuid.int_from_bytes entropy) 60).
  set (b1 := N.testbit (uuid.int_from_bytes entropy) 61).
  assert (Hvalue : N.land (N.shiftr (uuid.uuid4 entropy) 60) 15 =
                   (8 + N.b2n b0 + 2 * N.b2n b1)%N).
  { apply nibble_value; [destruct b0, b1; cbn; lia |].
    intros i Hi. rewrite testbit_uuid4.
    assert (Hc : i = 0%N \/ i = 1%N \/ i = 2%N \/ i = 3%N) by lia.
    destruct Hc as [-> | [-> | [-> | ->]]].
    - change (0 + 60)%N with 60%N. fold b0. now destruct b0, b1.
    - change (1 + 60)%N with 61%N. fold b1. now destruct b0, b1.
    - change (2 + 60)%N with 62%N.
      destruct (N.testbit (uuid.int_from_bytes entropy) 62);
        now destruct b0, b1.
    - change (3 + 60)%N with 63%N.
      destruct (N.testbit (uuid.int_from_bytes entropy) 63);
        now destruct b0, b1. }
  rewrite Hvalue. destruct b0, b1; cbn; tauto.
Qed.

(** X22. Every generated id is a version 4 UUID in its usual print: 36
    characters, hyphens at positions 8, 13, 18 and 23, the digit 4 at
    position 14, one of 8, 9, a, b at position 19, and lower-case
    hexadecimal digits everywhere else. *)
Theorem generated_ids_are_version_4_uuids (entropy : N) :
  let id := uuid.str (uuid.uuid4 entropy) in
  String.length id = 36 /\
  (forall i, In i [8; 13; 18; 23] -> String.get i id = Some "-"%char) /\
  String.get 14 id = Some "4"%char /\
  (exists c, String.get 19 id = Some c /\ In c ["8"; "9"; "a"; "b"]%char) /\
  (forall i c, String.get i id = Some c ->
               In i [8; 13; 18; 23] \/ In c uuid.hexdigits).
Proof.
  intros id. subst id. split; [apply uuid_str_length |].
  unfold uuid.str, uuid.hex32, uuid.slice.
  cbn [seq map firstn skipn List.app Nat.sub string_of_list_ascii].
  split; [| split; [| split]].
  - intros i [<- | [<- | [<- | [<- | []]]]]; reflexivity.
  - cbn [String.get]. now rewrite version_nibble.
  - cbn [String.get]. eexists. split; [reflexivity | apply variant_nibble].
  - intros i c.
    do 36 (destruct i as [| i];
           [cbn [String.get]; intros [= <-];
            first [ left; cbn [In]; tauto
                  | right; apply hex_digit_is_hex ] |]).
    cbn [String.get]. discriminate.
Qed.

(** ** Update and read *)

(** X23. Reading an id right after updating it with a name and a
    description the store can encode answers what the update answered: the
    updated record when the id is stored, 404 when it is not. *)
Theorem read_after_update_agrees
  (engine : Engine) (client client' : Mistral.t) (entropy entropy' : N)
  (x : string) (body : json) (journey : JourneyCreate.t) (t : table) :
  validate_JourneyCreate body = inr journey ->
  encodable (JourneyCreate.name journey) = true ->
  encodable (JourneyCreate.description journey) = true ->
  fst (app engine client' entropy' (GET_journey x)
         (snd (app engine client entropy (PUT_journey x body) t))) =
  fst (app engine client entropy (PUT_journey x body) t).
Proof.
  intros V Hname Hdescription.
  rewrite (update_journey_route engine client entropy x body journey t V).
  rewrite read_journey_route, Hname, Hdescription. cbn [andb].
  destruct (query_first x t) as [r |] eqn:E; cbn [fst snd].
  - rewrite query_first_map, E by apply overwrite_id. cbn [option_map fst].
    unfold overwrite. apply query_first_Some in E as [Hid _].
    now rewrite Hid, String.eqb_refl.
  - now rewrite E.
Qed.

Lemma read_after_update_agrees_witness :
  fst (app terse (mocked "Bonjour!") 7 (GET_journey "x")
         (snd (app terse (unreachable "down") 0 (PUT_journey "x" rename_A2_B2)
                 [record_x; record_5]))) =
  mkResponse 200 (Model (JourneyResponse.mk "x" "A2" "B2" (Some "C"))).
Proof.
  exact (read_after_update_agrees terse (unreachable "down")
           (mocked "Bonjour!") 0 7 "x" rename_A2_B2
           (JourneyCreate.mk "A2" "B2" None) [record_x; record_5]
           eq_refl eq_refl eq_refl).
Defined.


(** ** Text the store cannot encode *)

(** X24. An accepted body whose name or description holds a lone surrogate
    is refused by the store on each writing route and nothing is written:
    chat-create, once the AI has replied, answers 500 with the encode error
    the engine prints for the first such text; plain create answers the
    bare 500 page; so does update of a stored id. *)
Theorem unencodable_text_is_refused_by_the_store
  (engine : Engine) (client : Mistral.t) (entropy : N) (x : string)
  (body : json) (journey : JourneyCreate.t) (t : table) :
  validate_JourneyCreate body = inr journey ->
  encodable (JourneyCreate.name journey)
  && encodable (JourneyCreate.description journey) = false ->
  (forall chat_response choice rest,
     Mistral.chat_complete client model
       [[("role", "user"); ("content", JourneyCreate.description journey)]]
     = Return chat_response ->
     Mistral.choices chat_response = choice :: rest ->
     exists text,
       first_unencodable [JourneyCreate.name journey;
                          JourneyCreate.description journey] = Some text /\
       app engine client entropy (POST_journey_chat body) t =
       (mkResponse 500 (Dict [("detail", encode_error engine text)]), t)) /\
  app engine client entropy (POST_journeys body) t =
  (mkResponse 500 (PlainText "Internal Server Error"), t) /\
  (In x (ids t) ->
   app engine client entropy (PUT_journey x body) t =
   (mkResponse 500 (PlainText "Internal Server Error"), t)).
Proof.
  intros V Hbad. split; [| split].
  - intros chat_response choice rest Hret Hchoices.
    rewrite (chat_with_mistral_route engine client entropy body journey t V).
    rewrite Hret, Hchoices. cbv zeta. unfold first_unencodable. cbn [find].
    destruct (encodable (JourneyCreate.name journey)); cbn [negb andb] in *;
      [| eexists; split; reflexivity].
    rewrite Hbad. cbn [negb]. eexists; split; reflexivity.
  - rewrite (create_journey_route engine client entropy body journey t V).
    cbv zeta. now rewrite Hbad.
  - intros Hstored. apply query_first_present in Hstored as [r Hq].
    rewrite (update_journey_route engine client entropy x body journey t V).
    now rewrite Hq, Hbad.
Qed.

(** A name that is a lone surrogate, on the three writing routes. *)
Lemma unencodable_text_is_refused_by_the_store_witness :
  app terse (mocked "Bonjour!") 5 (POST_journeys trip_named_by_surrogate)
    [record_x] =
  (mkResponse 500 (PlainText "Internal Server Error"), [record_x]) /\
  app terse (mocked "Bonjour!") 5 (PUT_journey "x" trip_named_by_surrogate)
    [record_x] =
  (mkResponse 500 (PlainText "Internal Server Error"), [record_x]).
Proof.
  pose proof (unencodable_text_is_refused_by_the_store terse
                (mocked "Bonjour!") 5 "x" trip_named_by_surrogate
                (JourneyCreate.mk lone_surrogate "Plan my trip" None)
                [record_x] eq_refl eq_refl) as (_ & Hcreate & Hupdate).
  split; [exact Hcreate | apply Hupdate]. now left.
Defined.
